(** * Virtual wallet backend (backend_wallet_api.py)

    A shallow embedding of the wallet service: the three in-memory tables
    ([users_db], [items_db], [transactions_db]), the service functions that
    read and mutate them, the FastAPI endpoints built on top of them, and the
    properties of the balance / ledger logic.

    Python [float] is IEEE-754 binary64; it is modelled by [spec_float] with
    the operations of the Standard Library's [SpecFloat] at precision 53 and
    maximal exponent 1024.  Python [int] is [Z], [str] is [string]: the
    bytes of the UTF-8 encoding of the Python string, so that [==] is
    equality and [len] counts the bytes that start a character.

    The program raises exceptions after possibly having mutated its global
    lists, so every function is a computation in a reader/state/exception
    monad whose failures still carry the state reached at the raise. *)

From Stdlib Require Import ZArith String.
From Stdlib Require Import SpecFloat.
From stdpp Require Import base option list numbers strings pretty sorting.

Local Open Scope string_scope.
Local Open Scope Z_scope.

(** ** Binary64 floats *)

Module Float.

Definition float := spec_float.

Definition prec : Z := 53.
Definition emax : Z := 1024.

(** [x - y], [x + y], [x < y], [x <= y] on Python floats. *)
Definition sub : float -> float -> float := SFsub prec emax.
Definition add : float -> float -> float := SFadd prec emax.
Definition ltb : float -> float -> bool := SFltb.
Definition leb : float -> float -> bool := SFleb.

(** Membership in binary64: the mantissa/exponent pair is the canonical one. *)
Definition valid (x : float) : bool := valid_binary prec emax x.

Definition zero : float := S754_zero false.

(** The binary64 number nearest to the fraction [n / d] (ties to even), with
    sign [s]: the quotient step of [SFdiv] applied to the two integers,
    followed by the rounding every [SpecFloat] operation ends with.  This is
    what reading a decimal numeral ([strtod]) computes. *)
Definition of_ratio (s : bool) (n d : positive) : float :=
  let '(q, e, l) := SFdiv_core_binary prec emax (Zpos n) 0 (Zpos d) 0 in
  binary_round_aux prec emax s q e l.

Fixpoint pow10 (k : nat) : positive :=
  match k with
  | O => 1
  | S k => 10 * pow10 k
  end.

(** The decimal literal [digits * 10^-decimals], e.g. [literal 4999 2] for
    the source text [49.99]. *)
Definition literal (digits : positive) (decimals : nat) : float :=
  of_ratio false digits (pow10 decimals).

(** The integer nearest to [a / b], ties to the even one ([0 < b]). *)
Definition round_half_even (a b : Z) : Z :=
  let q := a / b in
  let r := a mod b in
  match 2 * r ?= b with
  | Lt => q
  | Gt => q + 1
  | Eq => if Z.even q then q else q + 1
  end.

(** Python's built-in [round(x, ndigits)] on a float, for [0 <= ndigits]
    (the wallet calls it with [2] only).  CPython prints [x] correctly
    rounded (half to even, on the exact binary value) to [ndigits] decimals
    and reads the decimal string back: the result is the float nearest to
    [n / 10^ndigits] where [n] is the integer nearest to [x * 10^ndigits].
    NaN, the infinities and the zeros round to themselves, the sign is kept,
    and a float with a non-negative exponent is an integer, hence its own
    rounding. *)
Definition round (x : float) (ndigits : nat) : float :=
  match x with
  | S754_finite s m e =>
      if 0 <=? e then x
      else
        match round_half_even (Zpos m * Zpos (pow10 ndigits)) (2 ^ (- e)) with
        | Zpos n => of_ratio s n (pow10 ndigits)
        | _ => S754_zero s
        end
  | _ => x
  end.

(** What the balance invariant needs of a stored balance: a finite,
    canonical binary64 number that is not negative. *)
Definition nonneg_finite (x : float) : bool :=
  match x with
  | S754_zero _ => true
  | S754_finite false m e => bounded prec emax m e
  | _ => false
  end.

(** A zero or a canonical finite number of sign [s]. *)
Definition finite_of_sign (s : bool) (x : float) : Prop :=
  x = S754_zero s \/
  exists m e, x = S754_finite s m e /\ bounded prec emax m e = true.

End Float.

Import Float.

(** ** Constants *)

(** [INITIAL_BALANCE = 100.00] *)
Definition INITIAL_BALANCE : float := literal 10000 2.

Definition ACCESS_TOKEN_EXPIRE_MINUTES : Z := 30.

(** ** Records of the three tables and of the request bodies

    The tables hold dictionaries with a fixed set of keys; a record field
    [x_key] stands for the dictionary entry ["key"]. *)

Record User := {
  u_id : Z;
  u_username : string;
  u_hashed_password : string;
  u_balance : float
}.

Record Item := {
  i_id : Z;
  i_name : string;
  i_price : float
}.

Record Transaction := {
  t_id : Z;
  t_user_id : Z;
  t_timestamp : Z;
  t_type : string;
  t_amount : float;
  t_description : string;
  t_item_id : option Z
}.

(** [UserCreate]: [password] has [min_length=6]. *)
Record UserCreate := {
  uc_username : string;
  uc_password : string
}.

(** [SpendRequest]: [amount] has [gt=0]. *)
Record SpendRequest := {
  sr_amount : float;
  sr_description : string
}.

(** The global lists of the module. *)
Record State := {
  users_db : list User;
  items_db : list Item;
  transactions_db : list Transaction
}.

(** What the process takes from outside while serving one request: the two
    clocks, the JWT library and the password hasher.  [jwt_decode] yields
    [None] for a [JWTError] (bad signature, expired, malformed) and
    otherwise the payload's ["sub"] entry, itself absent or a string.
    [pwd_context_hash] yields [None] when the hasher raises instead of
    returning a hash (bcrypt does on a password with a NUL byte). *)
Record Env := {
  datetime_now : Z;
  datetime_utcnow : Z;
  jwt_decode : string -> option (option string);
  jwt_encode : string -> Z -> string;
  pwd_context_hash : string -> option string;
  pwd_context_verify : string -> string -> bool
}.

(** ** Exceptions and the monad *)

(** [HTTPException(status_code, detail)]; the 422 answer FastAPI gives when
    a request violates its schema; and any other Python exception, which
    the server answers with 500 "Internal Server Error" when no handler of
    the program catches it. *)
Inductive Exception :=
| HTTPException (status_code : Z) (detail : string)
| RequestValidationError
| OtherException.

Inductive outcome (A : Type) :=
| Return (a : A)
| Raise (e : Exception).
Arguments Return {A} a.
Arguments Raise {A} e.

Definition M (A : Type) : Type := Env -> State -> outcome A * State.

Definition ret {A} (a : A) : M A := fun _ s => (Return a, s).

Definition raise {A} (e : Exception) : M A := fun _ s => (Raise e, s).

Definition bind {A B} (m : M A) (k : A -> M B) : M B :=
  fun env s =>
    match m env s with
    | (Return a, s') => k a env s'
    | (Raise e, s') => (Raise e, s')
    end.

Notation "'let*' x := m 'in' k" := (bind m (fun x => k))
  (at level 10, x pattern, m at level 100, k at level 200).
Notation "m ;; k" := (bind m (fun _ => k))
  (at level 100, k at level 200, right associativity).

(** [try: m except Exception as e: handler(e)]; the handler runs in the
    state the body had reached when it raised. *)
Definition catch {A} (m : M A) (handler : Exception -> M A) : M A :=
  fun env s =>
    match m env s with
    | (Return a, s') => (Return a, s')
    | (Raise e, s') => handler e env s'
    end.

Definition ask {A} (f : Env -> A) : M A := fun env s => (Return (f env), s).
Definition gets {A} (f : State -> A) : M A := fun _ s => (Return (f s), s).
Definition modify (f : State -> State) : M unit := fun _ s => (Return tt, f s).

(** The errors of the specification's taxonomy, as the exceptions the code
    raises for them. *)
Definition DuplicateUsername : Exception :=
  HTTPException 400 "Username already registered".
Definition UserNotFound : Exception :=
  HTTPException 404 "User not found".
Definition InsufficientFunds : Exception :=
  HTTPException 400 "Insufficient funds in wallet.".
Definition ItemNotFound (item_id : Z) : Exception :=
  HTTPException 404 ("Item with ID " ++ pretty item_id ++ " not found.").
(** [credentials_exception] *)
Definition InvalidCredential : Exception :=
  HTTPException 401 "Could not validate credentials".
Definition IncorrectLogin : Exception :=
  HTTPException 401 "Incorrect username or password".
(** What [OAuth2PasswordBearer] raises without a bearer token. *)
Definition NotAuthenticated : Exception :=
  HTTPException 401 "Not authenticated".
Definition RegistrationFailed : Exception :=
  HTTPException 500 "Registration failed.".

(** ** Security utilities *)

(** [get_password_hash(password)] *)
Definition get_password_hash (password : string) : M string :=
  fun env s =>
    match pwd_context_hash env password with
    | Some hashed_password => (Return hashed_password, s)
    | None => (Raise OtherException, s)
    end.

(** [len(s)] on a string: the number of its characters, that is of the
    bytes of its UTF-8 encoding that are not continuation bytes
    (0x80..0xBF). *)
Fixpoint len (s : string) : nat :=
  match s with
  | EmptyString => 0
  | String c s' =>
      let byte := Ascii.N_of_ascii c in
      if ((128 <=? byte) && (byte <? 192))%N then len s' else S (len s')
  end.

(** ** Service functions *)

(** [get_next_id(db)]: 1 for the empty list, else the largest id plus one. *)
Definition get_next_id {A} (id : A -> Z) (db : list A) : Z :=
  match db with
  | [] => 1
  | item :: rest => foldl Z.max (id item) (id <$> rest) + 1
  end.

(** [seed_data()] *)
Definition seed_data : list Item :=
  [ {| i_id := 1; i_name := "The Great Gatsby (Book)"; i_price := literal 5000 2 |};
    {| i_id := 2; i_name := "Coffee Mug"; i_price := literal 2550 2 |};
    {| i_id := 3; i_name := "Notebook (Premium)"; i_price := literal 1000 2 |};
    {| i_id := 4; i_name := "Mystery Box (Low Risk)"; i_price := literal 4999 2 |};
    {| i_id := 5; i_name := "Pen Set (Ballpoint)"; i_price := literal 1500 2 |} ].

(** The state of a freshly started process. *)
Definition initial_state : State :=
  {| users_db := []; items_db := seed_data; transactions_db := [] |}.

(** A user dictionary handed around in the program is the object stored in
    [users_db]; it is modelled by its position in the list together with its
    contents.  The list is only ever appended to, so positions are stable. *)
Definition UserRef : Type := nat * User.

(** [get_user(username)]: the first user with that name. *)
Definition get_user (username : string) : M (option UserRef) :=
  gets (fun s => list_find (fun user => u_username user = username) (users_db s)).

(** [get_user_by_id(user_id)]: the first user with that id. *)
Definition get_user_by_id (user_id : Z) : M (option UserRef) :=
  gets (fun s => list_find (fun user => u_id user = user_id) (users_db s)).

Definition with_balance (user : User) (b : float) : User :=
  {| u_id := u_id user; u_username := u_username user;
     u_hashed_password := u_hashed_password user; u_balance := b |}.

Definition with_users_db (users : list User) (s : State) : State :=
  {| users_db := users; items_db := items_db s;
     transactions_db := transactions_db s |}.

Definition with_transactions_db (transactions : list Transaction) (s : State) : State :=
  {| users_db := users_db s; items_db := items_db s;
     transactions_db := transactions |}.

(** [user['balance'] = b]: the write goes to the object in [users_db] at the
    position of [user]; the updated dictionary is returned. *)
Definition set_balance (user : UserRef) (b : float) : M UserRef :=
  let user' := with_balance user.2 b in
  modify (fun s => with_users_db (<[user.1 := user']> (users_db s)) s) ;;
  ret (user.1, user').

(** [record_transaction(user_id, amount, type, description, item_id)] *)
Definition record_transaction (user_id : Z) (amount : float) (type : string)
    (description : string) (item_id : option Z) : M Transaction :=
  let* transaction_id := gets (fun s => get_next_id t_id (transactions_db s)) in
  let* now := ask datetime_now in
  let new_transaction :=
    {| t_id := transaction_id; t_user_id := user_id; t_timestamp := now;
       t_type := type; t_amount := amount; t_description := description;
       t_item_id := item_id |} in
  modify (fun s => with_transactions_db (transactions_db s ++ [new_transaction]) s) ;;
  ret new_transaction.

(** [create_user_record(user)] *)
Definition create_user_record (user : UserCreate) : M UserRef :=
  let* existing := get_user (uc_username user) in
  match existing with
  | Some _ => raise DuplicateUsername
  | None =>
      let* hashed_password := get_password_hash (uc_password user) in
      let* user_id := gets (fun s => get_next_id u_id (users_db s)) in
      let new_user :=
        {| u_id := user_id; u_username := uc_username user;
           u_hashed_password := hashed_password; u_balance := INITIAL_BALANCE |} in
      let* position := gets (fun s => length (users_db s)) in
      modify (fun s => with_users_db (users_db s ++ [new_user]) s) ;;
      record_transaction user_id INITIAL_BALANCE "REGISTER" "Initial Wallet Setup" None ;;
      ret (position, new_user)
  end.

(** [update_user_balance(user_id, amount, operation)].  The local [user] is
    the dictionary stored in [users_db]: each assignment to
    [user['balance']] is a write to the store, and the later reads see it. *)
Definition update_user_balance (user_id : Z) (amount : float) (operation : string)
    : M float :=
  let* found := get_user_by_id user_id in
  match found with
  | None => raise UserNotFound
  | Some user =>
      let* user :=
        if String.eqb operation "SUBTRACT" then
          if ltb (u_balance user.2) amount then raise InsufficientFunds
          else set_balance user (sub (u_balance user.2) amount)
        else if String.eqb operation "ADD" then
          set_balance user (add (u_balance user.2) amount)
        else ret user in
      let* user := set_balance user (round (u_balance user.2) 2) in
      ret (u_balance user.2)
  end.

(** [oauth2_scheme]: the bearer token of the [Authorization] header. *)
Definition oauth2_scheme (authorization : option string) : M string :=
  match authorization with
  | Some token => ret token
  | None => raise NotAuthenticated
  end.

(** [get_current_user(token)] *)
Definition get_current_user (token : string) : M UserRef :=
  let credentials_exception := InvalidCredential in
  let* payload := ask (fun env => jwt_decode env token) in
  match payload with
  | None => raise credentials_exception
  | Some None => raise credentials_exception
  | Some (Some username) =>
      let* user := get_user username in
      match user with
      | None => raise credentials_exception
      | Some user => ret user
      end
  end.

(** [create_access_token(data, expires_delta)], with [data = {"sub": sub}];
    times are in seconds.  [if expires_delta:] is false for [None] and for a
    zero [timedelta]. *)
Definition create_access_token (sub : string) (expires_delta : option Z) : M string :=
  let* utcnow := ask datetime_utcnow in
  let default := utcnow + ACCESS_TOKEN_EXPIRE_MINUTES * 60 in
  let expire :=
    match expires_delta with
    | Some delta => if delta =? 0 then default else utcnow + delta
    | None => default
    end in
  ask (fun env => jwt_encode env sub expire).

(** ** Endpoints *)

Inductive Response :=
| UserBase (username : string)
| Token (access_token token_type : string)
| BalanceResponse (user_id : Z) (username : string) (balance : float)
| ItemList (items : list Item)
| TransactionList (transactions : list Transaction)
| UserInDBList (users : list User).

(** [register_user(user)] *)
Definition register_user (user : UserCreate) : M Response :=
  catch
    (let* new_user := create_user_record user in
     ret (UserBase (u_username new_user.2)))
    (fun e =>
       match e with
       | HTTPException _ _ => raise e
       | _ => raise RegistrationFailed
       end).

(** [login_for_access_token(form_data)] *)
Definition login_for_access_token (username password : string) : M Response :=
  let* user := get_user username in
  let* verify := ask pwd_context_verify in
  match user with
  | None => raise IncorrectLogin
  | Some user =>
      if verify password (u_hashed_password user.2) then
        let* access_token :=
          create_access_token (u_username user.2) (Some (ACCESS_TOKEN_EXPIRE_MINUTES * 60)) in
        ret (Token access_token "bearer")
      else raise IncorrectLogin
  end.

(** [get_balance(current_user)] *)
Definition get_balance (current_user : UserRef) : M Response :=
  ret (BalanceResponse (u_id current_user.2) (u_username current_user.2)
         (u_balance current_user.2)).

(** [spend_money(spend_data, current_user)] *)
Definition spend_money (spend_data : SpendRequest) (current_user : UserRef) : M Response :=
  let user_id := u_id current_user.2 in
  let* new_balance :=
    catch (update_user_balance user_id (sr_amount spend_data) "SUBTRACT")
      (fun e => raise e) in
  record_transaction user_id (sr_amount spend_data) "SPEND"
    (sr_description spend_data) None ;;
  ret (BalanceResponse user_id (u_username current_user.2) new_balance).

(** [list_items()] *)
Definition list_items : M Response :=
  let* items := gets items_db in
  ret (ItemList items).

(** [buy_item(item_id, current_user)] *)
Definition buy_item (item_id : Z) (current_user : UserRef) : M Response :=
  let user_id := u_id current_user.2 in
  let* item := gets (fun s => list_find (fun i => i_id i = item_id) (items_db s)) in
  match item with
  | None => raise (ItemNotFound item_id)
  | Some (_, item) =>
      let item_price := i_price item in
      let* new_balance :=
        catch (update_user_balance user_id item_price "SUBTRACT")
          (fun e => raise e) in
      record_transaction user_id item_price "BUY"
        ("Purchased: " ++ i_name item) (Some item_id) ;;
      ret (BalanceResponse user_id (u_username current_user.2) new_balance)
  end.

(** [get_all_transactions()] *)
Definition get_all_transactions : M Response :=
  let* transactions := gets transactions_db in
  ret (TransactionList transactions).

(** [get_all_users()] *)
Definition get_all_users : M Response :=
  let* users := gets users_db in
  ret (UserInDBList users).

(** ** Requests

    FastAPI resolves the [Depends(get_current_user)] dependency (which
    itself depends on [oauth2_scheme]) first, then validates the body
    against its schema, then calls the endpoint.  A request carries its
    [Authorization] bearer token, if any.  The two fields of the login form
    are required, and an empty form field counts as missing. *)

Inductive Request :=
| POST_auth_register (user : UserCreate)
| POST_auth_login (username password : string)
| GET_wallet_balance (authorization : option string)
| POST_wallet_spend (authorization : option string) (spend_data : SpendRequest)
| GET_items_list
| POST_items_buy (authorization : option string) (item_id : Z)
| GET_transactions
| GET_users.

Definition validate (ok : bool) : M unit :=
  if ok then ret tt else raise RequestValidationError.

(** The [gt=0] check of [SpendRequest.amount].  The 422 answer to a refused
    amount repeats that amount, and JSON has no NaN and no infinity: for
    these rendering the answer raises, which the server answers with 500. *)
Definition validate_amount (amount : float) : M unit :=
  if ltb zero amount then ret tt
  else
    match amount with
    | S754_nan | S754_infinity _ => raise OtherException
    | _ => raise RequestValidationError
    end.

Definition Depends_get_current_user (authorization : option string) : M UserRef :=
  let* token := oauth2_scheme authorization in
  get_current_user token.

Definition handle (request : Request) : M Response :=
  match request with
  | POST_auth_register user =>
      validate (6 <=? Z.of_nat (len (uc_password user))) ;;
      register_user user
  | POST_auth_login username password =>
      validate (negb (String.eqb username "") && negb (String.eqb password "")) ;;
      login_for_access_token username password
  | GET_wallet_balance authorization =>
      let* current_user := Depends_get_current_user authorization in
      get_balance current_user
  | POST_wallet_spend authorization spend_data =>
      let* current_user := Depends_get_current_user authorization in
      validate_amount (sr_amount spend_data) ;;
      spend_money spend_data current_user
  | GET_items_list => list_items
  | POST_items_buy authorization item_id =>
      let* current_user := Depends_get_current_user authorization in
      buy_item item_id current_user
  | GET_transactions => get_all_transactions
  | GET_users => get_all_users
  end.

(** The state after serving a sequence of requests, each in its own
    environment, one after the other. *)
Definition run (trace : list (Env * Request)) (s : State) : State :=
  foldl (fun s step => (handle step.2 step.1 s).2) s trace.

(** The floats a request carries are binary64 numbers. *)
Definition request_floats_valid (request : Request) : bool :=
  match request with
  | POST_wallet_spend _ spend_data => valid (sr_amount spend_data)
  | _ => true
  end.

(** The answers to a sequence of requests served one after the other. *)
Fixpoint answers (trace : list (Env * Request)) (s : State)
    : list (outcome Response) :=
  match trace with
  | [] => []
  | step :: trace =>
      (handle step.2 step.1 s).1 :: answers trace (handle step.2 step.1 s).2
  end.

(** How many of the answers are successes. *)
Fixpoint successes (outcomes : list (outcome Response)) : nat :=
  match outcomes with
  | [] => 0
  | Return _ :: outcomes => S (successes outcomes)
  | Raise _ :: outcomes => successes outcomes
  end.

(** [balance == 0] *)
Definition balance_is_zero (b : float) : bool := SFeqb b zero.

(** ** Spends served one after the other *)

(** The balance after [k] accepted spends of [amount] in a row, starting
    from [b]: each subtracts and rounds as [update_user_balance] does. *)
Fixpoint chain (k : nat) (amount b : float) : float :=
  match k with
  | O => b
  | S k => chain k amount (round (sub b amount) 2)
  end.

(** What [n] spends of [amount] make of the balance [b] when each is
    checked against the balance the previous one left: the number of
    accepted spends and the final balance. *)
Fixpoint serial_spends (n : nat) (amount b : float) : nat * float :=
  match n with
  | O => (O, b)
  | S n =>
      if ltb b amount then serial_spends n amount b
      else
        let '(accepted, b') := serial_spends n amount (round (sub b amount) 2) in
        (S accepted, b')
  end.

(** ** Relations and invariants used in the proofs

    A request leaves the state as it is, or registers a user, or debits the
    balance of a stored user; the last two append one ledger entry. *)

Definition registered (s s' : State) : Prop :=
  exists u t,
    s' = {| users_db := users_db s ++ [u]; items_db := items_db s;
            transactions_db := transactions_db s ++ [t] |} /\
    u_id u = get_next_id u_id (users_db s) /\
    u_balance u = INITIAL_BALANCE /\
    t_id t = get_next_id t_id (transactions_db s).

Definition debited (amount : float) (s s' : State) : Prop :=
  exists i u t,
    users_db s !! i = Some u /\
    ltb (u_balance u) amount = false /\
    s' = {| users_db :=
              <[i := with_balance u (round (sub (u_balance u) amount) 2)]> (users_db s);
            items_db := items_db s;
            transactions_db := transactions_db s ++ [t] |} /\
    t_id t = get_next_id t_id (transactions_db s).

(** Identifiers of both tables increase along the lists. *)
Definition ids_increasing (s : State) : Prop :=
  StronglySorted Z.lt (u_id <$> users_db s) /\
  StronglySorted Z.lt (t_id <$> transactions_db s).

(** Every stored balance is a finite non-negative binary64 number and the
    catalogue is the seeded one. *)
Definition balances_nonneg_finite (s : State) : Prop :=
  Forall (fun u => nonneg_finite (u_balance u) = true) (users_db s) /\
  items_db s = seed_data.

(** ** The effect of one request, in full

    The same two effects with everything the code fixes about the appended
    rows. *)

(** A registration appended the user [u] and the ledger entry [t]. *)
Definition registered_as (u : User) (t : Transaction) (s s' : State) : Prop :=
  s' = {| users_db := users_db s ++ [u]; items_db := items_db s;
          transactions_db := transactions_db s ++ [t] |} /\
  (forall v, v ∈ users_db s -> u_username v <> u_username u) /\
  u_id u = get_next_id u_id (users_db s) /\
  u_balance u = INITIAL_BALANCE /\
  t_id t = get_next_id t_id (transactions_db s) /\
  t_user_id t = u_id u /\ t_type t = "REGISTER" /\
  t_amount t = INITIAL_BALANCE /\ t_item_id t = None.

(** A spend or a purchase debited the user [u] stored at position [i] and
    appended the ledger entry [t]. *)
Definition debited_as (i : nat) (u : User) (t : Transaction) (s s' : State) : Prop :=
  users_db s !! i = Some u /\
  ltb (u_balance u) (t_amount t) = false /\
  s' = {| users_db :=
            <[i := with_balance u (round (sub (u_balance u) (t_amount t)) 2)]>
              (users_db s);
          items_db := items_db s;
          transactions_db := transactions_db s ++ [t] |} /\
  t_id t = get_next_id t_id (transactions_db s) /\
  t_user_id t = u_id u /\
  ((t_type t = "SPEND" /\ t_item_id t = None) \/
   (t_type t = "BUY" /\
    exists item, item ∈ items_db s /\ t_item_id t = Some (i_id item) /\
                 t_amount t = i_price item)).

(** The fields of a user that no code path assigns after creation. *)
Definition identity (u : User) : Z * string * string :=
  (u_id u, u_username u, u_hashed_password u).

(** The requests that only read. *)
Definition read_only (request : Request) : bool :=
  match request with
  | POST_auth_login _ _ | GET_wallet_balance _ | GET_items_list
  | GET_transactions | GET_users => true
  | _ => false
  end.

(** The bearer token of a request, if it carries one. *)
Definition authorization_of (request : Request) : option string :=
  match request with
  | GET_wallet_balance authorization
  | POST_wallet_spend authorization _
  | POST_items_buy authorization _ => authorization
  | _ => None
  end.

(** Replaying the ledger for the user [user_id]: a REGISTER entry sets the
    balance to its amount, any other entry of that user debits its amount and
    rounds, as [update_user_balance] does; entries of other users are
    skipped.  [None] stands for a user the ledger has not seen. *)
Definition replay_entry (user_id : Z) (b : option float) (t : Transaction)
    : option float :=
  if bool_decide (t_user_id t = user_id) then
    if String.eqb (t_type t) "REGISTER" then Some (t_amount t)
    else match b with
         | Some b => Some (round (sub b (t_amount t)) 2)
         | None => None
         end
  else b.

Definition replay (user_id : Z) (ledger : list Transaction) : option float :=
  foldl (replay_entry user_id) None ledger.

(** ** A running example: the scenario of the specification *)

(** Whether a string has a NUL byte. *)
Fixpoint has_nul (s : string) : bool :=
  match s with
  | EmptyString => false
  | String c s' => Ascii.eqb c Ascii.zero || has_nul s'
  end.

(** A toy environment: a token is the user name it was issued for, and the
    empty token does not decode; the hasher raises on a NUL byte. *)
Definition example_env : Env :=
  {| datetime_now := 1700000000;
     datetime_utcnow := 1700000000;
     jwt_decode := fun token => if String.eqb token "" then None else Some (Some token);
     jwt_encode := fun sub _ => sub;
     pwd_context_hash := fun password =>
       if has_nul password then None else Some ("hashed:" ++ password);
     pwd_context_verify := fun password hash => String.eqb ("hashed:" ++ password) hash |}.

Definition register_alice : Request :=
  POST_auth_register {| uc_username := "alice"; uc_password := "secret1" |}.

Definition spend (token : string) (amount : float) : Request :=
  POST_wallet_spend (Some token)
    {| sr_amount := amount; sr_description := "General Spend" |}.

Definition alice : User :=
  {| u_id := 1; u_username := "alice"; u_hashed_password := "hashed:secret1";
     u_balance := INITIAL_BALANCE |}.

(** A registration whose password has a NUL byte. *)
Definition bob_nul : UserCreate :=
  {| uc_username := "bob"; uc_password := String Ascii.zero "secret" |}.

(** The state after alice registered. *)
Definition alice_state : State := run [(example_env, register_alice)] initial_state.

(** The state after alice and then bob registered. *)
Definition two_users_state : State :=
  run [ (example_env, register_alice);
        (example_env,
         POST_auth_register {| uc_username := "bob"; uc_password := "hunter22" |}) ]
    initial_state.

(** The state after alice registered and spent 99.99: her balance is 0.01. *)
Definition cent_state : State :=
  run [ (example_env, register_alice);
        (example_env, spend "alice" (literal 9999 2)) ] initial_state.

(** The state after alice registered and spent 99.75: her balance is 0.25. *)
Definition quarter_state : State :=
  run [ (example_env, register_alice);
        (example_env, spend "alice" (literal 9975 2)) ] initial_state.

(** Register, spend 30, buy the coffee mug, try to spend 1000. *)
Definition scenario : list (Env * Request) :=
  [ (example_env, register_alice);
    (example_env, spend "alice" (literal 30 0));
    (example_env, POST_items_buy (Some "alice") 2);
    (example_env, spend "alice" (literal 1000 0)) ].

(** * Facts about the float operations *)

Module FloatFacts.

Lemma fexp_eq x : fexp prec emax x = Z.max (x - 53) (-1074).
Proof. reflexivity. Qed.

Lemma digits2_pos_size p : digits2_pos p = Pos.size p.
Proof. induction p; simpl; congruence. Qed.

Lemma Zdigits2_log2 m : 0 < m -> Zdigits2 m = Z.log2 m + 1.
Proof.
  destruct m as [|p|p]; try lia. intros _. simpl.
  rewrite digits2_pos_size. destruct p; simpl; lia.
Qed.

Lemma Zdigits2_nonneg m : 0 <= Zdigits2 m.
Proof. destruct m; simpl; lia. Qed.

Lemma Zdigits2_bounds m : 0 < m -> 2 ^ (Zdigits2 m - 1) <= m < 2 ^ Zdigits2 m.
Proof.
  intros Hm. rewrite Zdigits2_log2 by done.
  replace (Z.log2 m + 1 - 1) with (Z.log2 m) by lia.
  apply Z.log2_spec. done.
Qed.

Lemma Zdigits2_unique m k : 2 ^ (k - 1) <= m < 2 ^ k -> 0 < m -> Zdigits2 m = k.
Proof.
  intros Hk Hm. rewrite Zdigits2_log2 by done.
  assert (0 < k).
  { destruct (Z.lt_trichotomy k 0) as [?|[->|?]]; try done.
    - rewrite (Z.pow_neg_r 2 k) in Hk by lia. lia.
    - simpl in Hk. lia. }
  enough (Z.log2 m = k - 1) by lia.
  apply Z.log2_unique; [lia|]. replace (Z.succ (k - 1)) with k by lia. done.
Qed.

Lemma Zdigits2_mono a b : 0 <= a <= b -> Zdigits2 a <= Zdigits2 b.
Proof.
  intros [Ha Hab]. destruct (Z.eq_dec a 0) as [->|].
  - apply Zdigits2_nonneg.
  - rewrite !Zdigits2_log2 by lia.
    apply Z.add_le_mono_r, Z.log2_le_mono. done.
Qed.

Lemma Zdigits2_succ m : 0 <= m -> Zdigits2 (m + 1) <= Zdigits2 m + 1.
Proof.
  intros Hm. destruct (Z.eq_dec m 0) as [->|]; [done|].
  rewrite !Zdigits2_log2 by lia.
  pose proof (Z.log2_succ_le m) as H. rewrite <- !Z.add_1_r in H. lia.
Qed.

Lemma Zdigits2_shiftl m n : 0 < m -> 0 <= n -> Zdigits2 (m * 2 ^ n) = Zdigits2 m + n.
Proof.
  intros Hm Hn.
  assert (0 < 2 ^ n) by (apply Z.pow_pos_nonneg; lia).
  rewrite !Zdigits2_log2 by nia.
  rewrite Z.log2_mul_pow2 by lia. lia.
Qed.

Lemma Zdigits2_shiftr m n :
  0 <= m -> 0 <= n -> Zdigits2 (m / 2 ^ n) = Z.max 0 (Zdigits2 m - n).
Proof.
  intros Hm Hn.
  assert (Hp : 0 < 2 ^ n) by (apply Z.pow_pos_nonneg; lia).
  destruct (Z.eq_dec m 0) as [->|Hm0].
  { rewrite Z.div_0_l by lia. simpl. lia. }
  pose proof (Zdigits2_bounds m ltac:(lia)) as [Hlo Hhi].
  pose proof (Zdigits2_nonneg m) as Hd.
  destruct (Z_lt_le_dec n (Zdigits2 m)) as [Hlt|Hge].
  - rewrite Z.max_r by lia.
    assert (Hq : 2 ^ (Zdigits2 m - n - 1) <= m / 2 ^ n < 2 ^ (Zdigits2 m - n)).
    { split.
      - apply Z.div_le_lower_bound; [done|].
        rewrite <- Z.pow_add_r by lia.
        replace (n + (Zdigits2 m - n - 1)) with (Zdigits2 m - 1) by lia. done.
      - apply Z.div_lt_upper_bound; [done|].
        rewrite <- Z.pow_add_r by lia.
        replace (n + (Zdigits2 m - n)) with (Zdigits2 m) by lia. done. }
    apply Zdigits2_unique; [done|].
    assert (0 < 2 ^ (Zdigits2 m - n - 1)) by (apply Z.pow_pos_nonneg; lia). lia.
  - rewrite Z.max_l by lia.
    rewrite Z.div_small; [done|]. split; [done|].
    apply Z.lt_le_trans with (2 ^ Zdigits2 m); [done|].
    apply Z.pow_le_mono_r; lia.
Qed.


Lemma shr_1_m mrs : 0 <= shr_m mrs -> shr_m (shr_1 mrs) = shr_m mrs / 2.
Proof.
  destruct mrs as [[|[p|p|]|p] r s]; cbn [shr_1 shr_m]; intros H; try lia; try done.
  - rewrite (Pos2Z.inj_xI p). apply Z.div_unique with 1; lia.
  - rewrite (Pos2Z.inj_xO p). apply Z.div_unique with 0; lia.
Qed.

Lemma iter_pos_shr_1 p mrs :
  0 <= shr_m mrs -> shr_m (SpecFloat.iter_pos shr_1 p mrs) = shr_m mrs / 2 ^ Zpos p.
Proof.
  revert mrs. induction p as [p IH|p IH|]; intros mrs Hm.
  - change (SpecFloat.iter_pos shr_1 p~1 mrs)
      with (SpecFloat.iter_pos shr_1 p (SpecFloat.iter_pos shr_1 p (shr_1 mrs))).
    assert (H2 : 0 < 2 ^ Zpos p) by (apply Z.pow_pos_nonneg; lia).
    assert (H1 : 0 <= shr_m (shr_1 mrs)) by (rewrite shr_1_m by done; apply Z.div_pos; lia).
    assert (H3 : 0 <= shr_m (SpecFloat.iter_pos shr_1 p (shr_1 mrs))).
    { rewrite IH by done. apply Z.div_pos; lia. }
    rewrite IH, IH, shr_1_m by done.
    rewrite !Z.div_div by lia.
    f_equal. rewrite (Pos2Z.inj_xI p).
    replace (2 * Zpos p + 1) with (1 + Zpos p + Zpos p) by lia.
    rewrite !Z.pow_add_r by lia. lia.
  - change (SpecFloat.iter_pos shr_1 p~0 mrs)
      with (SpecFloat.iter_pos shr_1 p (SpecFloat.iter_pos shr_1 p mrs)).
    assert (H2 : 0 < 2 ^ Zpos p) by (apply Z.pow_pos_nonneg; lia).
    assert (H3 : 0 <= shr_m (SpecFloat.iter_pos shr_1 p mrs)).
    { rewrite IH by done. apply Z.div_pos; lia. }
    rewrite IH, IH by done.
    rewrite !Z.div_div by lia.
    f_equal. rewrite (Pos2Z.inj_xO p).
    replace (2 * Zpos p) with (Zpos p + Zpos p) by lia.
    rewrite !Z.pow_add_r by lia. lia.
  - change (SpecFloat.iter_pos shr_1 1 mrs) with (shr_1 mrs).
    rewrite shr_1_m by done. done.
Qed.

Lemma shr_record_of_loc_m m l : shr_m (shr_record_of_loc m l) = m.
Proof. destruct l as [|[]]; done. Qed.

(** The first and the second step of [binary_round_aux] both divide the
    mantissa by the power of two that brings the exponent to [fexp]. *)
Lemma shr_fexp_spec m e l :
  0 <= m -> e <= fexp prec emax (Zdigits2 m + e) ->
  exists mrs,
    shr_fexp prec emax m e l = (mrs, fexp prec emax (Zdigits2 m + e)) /\
    shr_m mrs = m / 2 ^ (fexp prec emax (Zdigits2 m + e) - e).
Proof.
  intros Hm He. unfold shr_fexp, shr.
  destruct (fexp prec emax (Zdigits2 m + e) - e) as [|n|n] eqn:Hn; try lia.
  - eexists. split.
    + f_equal. lia.
    + rewrite shr_record_of_loc_m. simpl. rewrite Z.div_1_r. done.
  - eexists. split.
    + f_equal. lia.
    + rewrite iter_pos_shr_1; rewrite shr_record_of_loc_m; done.
Qed.

Lemma fexp_mono x y : x <= y -> fexp prec emax x <= fexp prec emax y.
Proof. rewrite !fexp_eq. lia. Qed.

(** After that division the pair is canonical. *)
Lemma canonical_after_shift m e :
  0 <= m -> e <= fexp prec emax (Zdigits2 m + e) ->
  let e' := fexp prec emax (Zdigits2 m + e) in
  fexp prec emax (Zdigits2 (m / 2 ^ (e' - e)) + e') = e'.
Proof.
  intros Hm He e'. subst e'.
  rewrite Zdigits2_shiftr by lia.
  pose proof (Zdigits2_nonneg m).
  rewrite !fexp_eq in *. lia.
Qed.

Lemma round_nearest_even_range m l :
  m <= round_nearest_even m l <= m + 1.
Proof. destruct l as [|[]]; simpl; try lia. destruct (Z.even m); lia. Qed.

(** [binary_round_aux] in closed form: the mantissa is divided down to the
    exponent [fexp] asks for, moved to a neighbouring integer [m'], and
    divided once more in case that step produced one more digit. *)
Lemma binary_round_aux_spec s m e l :
  0 <= m -> e <= fexp prec emax (Zdigits2 m + e) ->
  let e1 := fexp prec emax (Zdigits2 m + e) in
  exists m',
    m / 2 ^ (e1 - e) <= m' <= m / 2 ^ (e1 - e) + 1 /\
    let e2 := fexp prec emax (Zdigits2 m' + e1) in
    e1 <= e2 /\
    fexp prec emax (Zdigits2 (m' / 2 ^ (e2 - e1)) + e2) = e2 /\
    binary_round_aux prec emax s m e l =
      match m' / 2 ^ (e2 - e1) with
      | Z0 => S754_zero s
      | Zpos p => if e2 <=? emax - prec then S754_finite s p e2 else S754_infinity s
      | Zneg _ => S754_nan
      end.
Proof.
  intros Hm He e1.
  destruct (shr_fexp_spec m e l Hm He) as (mrs1 & Hs1 & Hm1).
  fold e1 in Hs1, Hm1.
  pose proof (canonical_after_shift m e Hm He) as Hc1. cbv zeta in Hc1. fold e1 in Hc1.
  assert (H2 : 0 < 2 ^ (e1 - e)) by (apply Z.pow_pos_nonneg; lia).
  assert (Hm1' : 0 <= m / 2 ^ (e1 - e)) by (apply Z.div_pos; lia).
  pose proof (round_nearest_even_range (shr_m mrs1) (loc_of_shr_record mrs1)) as Hr.
  set (m' := round_nearest_even (shr_m mrs1) (loc_of_shr_record mrs1)) in *.
  rewrite Hm1 in Hr.
  assert (He1 : e1 <= fexp prec emax (Zdigits2 m' + e1)).
  { rewrite <- Hc1 at 1. apply fexp_mono.
    pose proof (Zdigits2_mono (m / 2 ^ (e1 - e)) m'). lia. }
  destruct (shr_fexp_spec m' e1 loc_Exact ltac:(lia) He1) as (mrs2 & Hs2 & Hm2).
  exists m'. split; [done|]. cbv zeta. split; [done|]. split.
  { apply canonical_after_shift; [lia|done]. }
  unfold binary_round_aux. rewrite Hs1. fold m'. rewrite Hs2, Hm2. done.
Qed.


Lemma bounded_spec m e :
  bounded prec emax m e = true <->
  fexp prec emax (Zdigits2 (Zpos m) + e) = e /\ e <= emax - prec.
Proof.
  unfold bounded, canonical_mantissa. simpl Zdigits2.
  rewrite andb_true_iff, Z.eqb_eq, Z.leb_le. done.
Qed.

(** No overflow: a value below a representable number [M * 2^(e+k)] rounds
    to a finite number. *)
Lemma binary_round_aux_finite s m e l M k :
  0 <= m -> e <= fexp prec emax (Zdigits2 m + e) ->
  0 < M -> 0 <= k ->
  fexp prec emax (Zdigits2 M + (e + k)) = e + k -> e + k <= emax - prec ->
  m < M * 2 ^ k ->
  finite_of_sign s (binary_round_aux prec emax s m e l).
Proof.
  intros Hm He HM Hk HcM HeM Hlt.
  destruct (binary_round_aux_spec s m e l Hm He) as (m' & Hm' & He12 & Hc2 & ->).
  cbv zeta in *.
  set (e1 := fexp prec emax (Zdigits2 m + e)) in *.
  set (e2 := fexp prec emax (Zdigits2 m' + e1)) in *.
  pose proof (canonical_after_shift m e Hm He) as Hc1. cbv zeta in Hc1. fold e1 in Hc1.
  assert (H2 : 0 < 2 ^ (e1 - e)) by (apply Z.pow_pos_nonneg; lia).
  assert (H2k : 0 < 2 ^ k) by (apply Z.pow_pos_nonneg; lia).
  assert (Hm1 : 0 <= m / 2 ^ (e1 - e)) by (apply Z.div_pos; lia).
  assert (Hd : Zdigits2 m <= Zdigits2 M + k).
  { rewrite <- Zdigits2_shiftl by lia. apply Zdigits2_mono. lia. }
  assert (He1 : e1 <= e + k).
  { rewrite <- HcM. apply fexp_mono. lia. }
  assert (He2 : e2 <= e + k).
  { destruct (Z.eq_dec e1 (e + k)) as [Heq|Hne].
    - rewrite <- HcM. unfold e2. rewrite Heq. apply fexp_mono.
      apply Z.add_le_mono_r, Zdigits2_mono.
      assert (m / 2 ^ (e1 - e) < M); [|lia].
      apply Z.div_lt_upper_bound; [done|].
      replace (e1 - e) with k by lia. lia.
    - pose proof (Zdigits2_mono m' (m / 2 ^ (e1 - e) + 1) ltac:(lia)).
      pose proof (Zdigits2_succ (m / 2 ^ (e1 - e)) Hm1).
      unfold e2. rewrite fexp_eq in *. lia. }
  destruct (m' / 2 ^ (e2 - e1)) as [|p|p] eqn:Hq.
  - left. done.
  - right. replace (e2 <=? emax - prec) with true by (symmetry; apply Z.leb_le; lia).
    exists p, e2. split; [done|]. apply bounded_spec. split; [done|lia].
  - assert (0 <= m' / 2 ^ (e2 - e1)); [|lia].
    apply Z.div_pos; [lia|]. apply Z.pow_pos_nonneg; lia.
Qed.

Lemma Pos_iter_xO m d : Zpos (Pos.iter xO m d) = Zpos m * 2 ^ Zpos d.
Proof.
  induction d as [|d IH] using Pos.peano_ind.
  - simpl. lia.
  - rewrite Pos.iter_succ, Pos2Z.inj_xO, IH, Pos2Z.inj_succ, Z.pow_succ_r by lia. lia.
Qed.

Lemma shl_align_spec mx ex ex' :
  let ez := Z.min ex ex' in
  exists mz, shl_align mx ex ex' = (mz, ez) /\ Zpos mz = Zpos mx * 2 ^ (ex - ez).
Proof.
  intros ez. unfold shl_align.
  destruct (ex' - ex) as [|d|d] eqn:Hd.
  - exists mx. replace ez with ex by lia. rewrite Z.sub_diag. split; [done|]. simpl; lia.
  - exists mx. replace ez with ex by lia. rewrite Z.sub_diag. split; [done|]. simpl; lia.
  - exists (Pos.iter xO mx d). replace ez with ex' by lia. split; [done|].
    rewrite Pos_iter_xO. f_equal. f_equal. lia.
Qed.

Lemma binary_round_finite s mx ex M k :
  0 < M -> 0 <= k ->
  fexp prec emax (Zdigits2 M + (ex + k)) = ex + k -> ex + k <= emax - prec ->
  Zpos mx < M * 2 ^ k ->
  finite_of_sign s (binary_round prec emax s mx ex).
Proof.
  intros HM Hk HcM HeM Hlt. unfold binary_round.
  destruct (shl_align_spec mx ex (fexp prec emax (Zpos (digits2_pos mx) + ex)))
    as (mz & -> & Hmz).
  cbv zeta in Hmz.
  set (ez := Z.min ex (fexp prec emax (Zpos (digits2_pos mx) + ex))) in *.
  assert (Hj : 0 <= ex - ez) by lia.
  assert (Hdz : Zdigits2 (Zpos mz) + ez = Zpos (digits2_pos mx) + ex).
  { rewrite Hmz, Zdigits2_shiftl by lia. simpl Zdigits2. lia. }
  apply (binary_round_aux_finite s (Zpos mz) ez loc_Exact M (k + (ex - ez))); try lia.
  - rewrite Hdz. lia.
  - replace (ez + (k + (ex - ez))) with (ex + k) by lia. done.
  - rewrite Hmz, Z.pow_add_r by lia.
    assert (0 < 2 ^ (ex - ez)) by (apply Z.pow_pos_nonneg; lia). nia.
Qed.


Lemma finite_of_sign_nonneg x : finite_of_sign false x -> nonneg_finite x = true.
Proof. intros [->|(m & e & -> & H)]; done. Qed.

Lemma pow2_pos k : 0 <= k -> 0 < 2 ^ k.
Proof. intros. apply Z.pow_pos_nonneg; lia. Qed.

(** Two canonical positive numbers compare as their exponents do when
    these differ. *)
Lemma bounded_exponent_gt mb eb ma ea :
  bounded prec emax mb eb = true -> bounded prec emax ma ea = true ->
  ea < eb -> Zpos ma < Zpos mb * 2 ^ (eb - ea).
Proof.
  intros [Hb _]%bounded_spec [Ha _]%bounded_spec Hlt.
  rewrite fexp_eq in Ha, Hb.
  pose proof (Zdigits2_bounds (Zpos mb) ltac:(lia)) as [Hlo _].
  pose proof (Zdigits2_bounds (Zpos ma) ltac:(lia)) as [_ Hhi].
  assert (Hdb : Zdigits2 (Zpos mb) = 53) by lia.
  assert (Hda : Zdigits2 (Zpos ma) <= 53) by lia.
  rewrite Hdb in Hlo.
  assert (2 ^ Zdigits2 (Zpos ma) <= 2 ^ 53) by (apply Z.pow_le_mono_r; lia).
  assert (2 ^ 1 <= 2 ^ (eb - ea)) by (apply Z.pow_le_mono_r; lia).
  change (2 ^ (53 - 1)) with 4503599627370496 in Hlo.
  change (2 ^ 53) with 9007199254740992 in *. change (2 ^ 1) with 2 in *.
  nia.
Qed.

(** [b - a] for a stored balance [b] and an amount [0 < a] that passed the
    funds check [not (b < a)]. *)
Lemma sub_nonneg_finite b a :
  nonneg_finite b = true -> valid a = true ->
  ltb zero a = true -> ltb b a = false ->
  nonneg_finite (sub b a) = true.
Proof.
  intros Hb Ha Hpos Hge.
  destruct a as [sa|[]| |[] ma ea]; try done;
    destruct b as [sb|sb| |[] mb eb]; try done.
  apply finite_of_sign_nonneg.
  unfold valid in Ha. simpl in Ha, Hb.
  unfold sub, SFsub. cbv zeta.
  set (ez := Z.min eb ea).
  destruct (shl_align_spec mb eb ez) as (mb' & -> & Hmb).
  destruct (shl_align_spec ma ea ez) as (ma' & -> & Hma).
  cbv zeta in Hmb, Hma. simpl fst. simpl cond_Zopp.
  replace (Z.min eb ez) with ez in * by lia.
  replace (Z.min ea ez) with ez in * by lia.
  assert (Hlt : Zpos mb' - Zpos ma' < Zpos mb * 2 ^ (eb - ez)) by lia.
  assert (Hnn : 0 <= Zpos mb' - Zpos ma').
  { unfold ltb, SFltb, SFcompare in Hge.
    destruct (Z.compare_spec eb ea) as [Heq|Hlt'|Hgt]; try done.
    - subst ea. replace ez with eb in * by lia. rewrite Z.sub_diag in *.
      change (Pos.compare_cont Eq mb ma) with (Pos.compare mb ma) in Hge.
      destruct (Pos.compare_spec mb ma); try done; simpl in *; lia.
    - replace ez with ea in * by lia. rewrite Z.sub_diag in Hma.
      pose proof (bounded_exponent_gt mb eb ma ea Hb Ha Hgt). simpl in *; lia. }
  destruct (Zpos mb' - Zpos ma') as [|d|d] eqn:Hd; try lia.
  - left. done.
  - simpl binary_normalize.
    apply (binary_round_finite false d ez (Zpos mb) (eb - ez)); try lia.
    + replace (ez + (eb - ez)) with eb by lia.
      apply bounded_spec in Hb. tauto.
    + replace (ez + (eb - ez)) with eb by lia.
      apply bounded_spec in Hb. tauto.
Qed.


Lemma Zdigits2_pow2 j : 0 <= j -> Zdigits2 (2 ^ j) = j + 1.
Proof.
  intros Hj. pose proof (pow2_pos j Hj).
  rewrite Zdigits2_log2, Z.log2_pow2 by lia. done.
Qed.

(** The fraction [n / d], when below [2^1023], rounds to a canonical finite
    number or to zero. *)
Lemma of_ratio_finite s n d :
  Zpos n < Zpos d * 2 ^ 1023 -> finite_of_sign s (of_ratio s n d).
Proof.
  intros Hlt. unfold of_ratio, SFdiv_core_binary.
  set (d1 := Zdigits2 (Zpos n)). set (d2 := Zdigits2 (Zpos d)).
  rewrite !Z.add_0_r. change (0 - 0) with 0.
  set (e' := Z.min (fexp prec emax (d1 - d2)) 0).
  set (sh := 0 - e').
  assert (Hsh : 0 <= sh) by lia.
  assert (Hpsh : 0 < 2 ^ sh) by (apply pow2_pos; done).
  set (m' := match sh with Zpos _ => Z.shiftl (Zpos n) sh | 0 => Zpos n | Zneg _ => 0 end).
  assert (Hm' : m' = Zpos n * 2 ^ sh).
  { unfold m'. destruct sh eqn:E; try lia.
    rewrite Z.shiftl_mul_pow2 by lia. done. }
  clearbody m'.
  pose proof (Z_div_mod m' (Zpos d) ltac:(lia)) as Hdm.
  assert (Hq : (Z.div_eucl m' (Zpos d)).1 = m' / Zpos d) by done.
  destruct (Z.div_eucl m' (Zpos d)) as [q r]. simpl in Hq. subst q m'.
  set (q := Zpos n * 2 ^ sh / Zpos d) in *.
  assert (Hq0 : 0 <= q) by (apply Z.div_pos; lia).
  pose proof (Zdigits2_bounds (Zpos n) ltac:(lia)) as [Hnlo _].
  pose proof (Zdigits2_bounds (Zpos d) ltac:(lia)) as [_ Hdhi].
  fold d1 in Hnlo. fold d2 in Hdhi.
  assert (Hd1 : 0 < d1) by (unfold d1; simpl; lia).
  assert (Hd2 : 0 < d2) by (unfold d2; simpl; lia).
  assert (Hdq : d1 + sh - d2 <= Zdigits2 q).
  { destruct (Z_le_gt_dec (d1 + sh - d2) 0) as [?|Hgt].
    { pose proof (Zdigits2_nonneg q). lia. }
    apply Z.le_trans with (Zdigits2 (2 ^ (d1 + sh - d2 - 1)));
      [rewrite Zdigits2_pow2; lia|].
    apply Zdigits2_mono. split; [apply Z.lt_le_incl, pow2_pos; lia|].
    apply Z.div_le_lower_bound; [lia|].
    apply Z.le_trans with (2 ^ d2 * 2 ^ (d1 + sh - d2 - 1)).
    { apply Z.mul_le_mono_nonneg_r; [apply Z.lt_le_incl, pow2_pos|]; lia. }
    rewrite <- Z.pow_add_r by lia.
    replace (d2 + (d1 + sh - d2 - 1)) with (d1 - 1 + sh) by lia.
    rewrite Z.pow_add_r by lia.
    apply Z.mul_le_mono_nonneg_r; lia. }
  apply (binary_round_aux_finite s q e' _ (2 ^ 52) (971 + sh)); try lia.
  - apply Z.le_trans with (fexp prec emax (d1 - d2)); [lia|].
    apply fexp_mono. lia.
  - rewrite Zdigits2_pow2 by lia. unfold sh, e'. rewrite !fexp_eq. lia.
  - unfold emax, prec. lia.
  - apply Z.div_lt_upper_bound; [lia|].
    assert (HB : 2 ^ 52 * 2 ^ 971 = 2 ^ 1023) by done.
    rewrite Z.pow_add_r, (Z.mul_assoc (2 ^ 52)), HB by lia.
    set (B := 2 ^ 1023) in *. clearbody B. nia.
Qed.

Lemma round_half_even_range a b :
  0 <= a -> 0 < b -> 0 <= round_half_even a b <= a / b + 1.
Proof.
  intros Ha Hb. unfold round_half_even.
  assert (0 <= a / b) by (apply Z.div_pos; lia).
  destruct (2 * (a mod b) ?= b); [destruct (Z.even (a / b))| |]; lia.
Qed.

(** [round] keeps a non-negative finite number non-negative and finite. *)
Lemma round_nonneg_finite x ndigits :
  nonneg_finite x = true -> nonneg_finite (round x ndigits) = true.
Proof.
  destruct x as [sx|sx| |[] m e]; try done.
  intros Hb. unfold round.
  destruct (0 <=? e) eqn:He; [done|]. apply Z.leb_gt in He.
  set (scale := pow10 ndigits).
  pose proof (round_half_even_range (Zpos m * Zpos scale) (2 ^ (- e))
                ltac:(lia) ltac:(apply pow2_pos; lia)) as [Hn0 Hn1].
  destruct (round_half_even (Zpos m * Zpos scale) (2 ^ (- e))) as [|n|n]; try done.
  apply finite_of_sign_nonneg, of_ratio_finite.
  simpl in Hb. apply bounded_spec in Hb as [Hc _]. rewrite fexp_eq in Hc.
  pose proof (Zdigits2_bounds (Zpos m) ltac:(lia)) as [_ Hhi].
  assert (2 ^ Zdigits2 (Zpos m) <= 2 ^ 53) by (apply Z.pow_le_mono_r; lia).
  assert (Zpos m * Zpos scale / 2 ^ (- e) <= Zpos m * Zpos scale).
  { apply Z.div_le_upper_bound; [apply pow2_pos; lia|].
    pose proof (pow2_pos (- e) ltac:(lia)). nia. }
  assert (2 ^ 53 + 1 < 2 ^ 1023) by done.
  nia.
Qed.

End FloatFacts.

(** * Facts about the service functions *)

Import FloatFacts.

(** ** Closed forms *)

Lemma record_transaction_eq user_id amount type description item_id env s :
  record_transaction user_id amount type description item_id env s =
    let t := {| t_id := get_next_id t_id (transactions_db s); t_user_id := user_id;
                t_timestamp := datetime_now env; t_type := type; t_amount := amount;
                t_description := description; t_item_id := item_id |} in
    (Return t, with_transactions_db (transactions_db s ++ [t]) s).
Proof. reflexivity. Qed.

Lemma update_user_balance_eq user_id amount operation env s :
  update_user_balance user_id amount operation env s =
    match list_find (fun user => u_id user = user_id) (users_db s) with
    | None => (Raise UserNotFound, s)
    | Some (i, u) =>
        let store b :=
          (Return (round b 2),
           with_users_db (<[i := with_balance u (round b 2)]> (users_db s)) s) in
        if String.eqb operation "SUBTRACT" then
          if ltb (u_balance u) amount then (Raise InsufficientFunds, s)
          else store (sub (u_balance u) amount)
        else if String.eqb operation "ADD" then store (add (u_balance u) amount)
        else store (u_balance u)
    end.
Proof.
  unfold update_user_balance, bind, get_user_by_id, gets. cbv zeta.
  destruct (list_find _ (users_db s)) as [[i u]|]; [|done]. cbn [fst snd].
  destruct (String.eqb operation "SUBTRACT").
  - destruct (ltb (u_balance u) amount); [done|].
    cbn. by rewrite list_insert_insert_eq.
  - destruct (String.eqb operation "ADD"); cbn; [|done].
    by rewrite list_insert_insert_eq.
Qed.

Lemma get_current_user_eq token env s :
  get_current_user token env s =
    match jwt_decode env token with
    | Some (Some username) =>
        match list_find (fun user => u_username user = username) (users_db s) with
        | Some user => (Return user, s)
        | None => (Raise InvalidCredential, s)
        end
    | _ => (Raise InvalidCredential, s)
    end.
Proof.
  unfold get_current_user, bind, ask, get_user, gets. cbv zeta.
  destruct (jwt_decode env token) as [[username|]|]; [|done..].
  by destruct (list_find _ (users_db s)).
Qed.

Lemma create_user_record_eq user env s :
  create_user_record user env s =
    match list_find (fun v => u_username v = uc_username user) (users_db s) with
    | Some _ => (Raise DuplicateUsername, s)
    | None =>
        match pwd_context_hash env (uc_password user) with
        | None => (Raise OtherException, s)
        | Some hashed_password =>
            let new_user :=
              {| u_id := get_next_id u_id (users_db s);
                 u_username := uc_username user;
                 u_hashed_password := hashed_password;
                 u_balance := INITIAL_BALANCE |} in
            let t := {| t_id := get_next_id t_id (transactions_db s);
                        t_user_id := u_id new_user; t_timestamp := datetime_now env;
                        t_type := "REGISTER"; t_amount := INITIAL_BALANCE;
                        t_description := "Initial Wallet Setup"; t_item_id := None |} in
            (Return (length (users_db s), new_user),
             {| users_db := users_db s ++ [new_user]; items_db := items_db s;
                transactions_db := transactions_db s ++ [t] |})
        end
    end.
Proof.
  unfold create_user_record, bind, get_user, gets, get_password_hash. cbv zeta.
  destruct (list_find _ (users_db s)); [done|].
  by destruct (pwd_context_hash env (uc_password user)).
Qed.

Lemma spend_money_eq spend_data current_user env s :
  spend_money spend_data current_user env s =
    match update_user_balance (u_id current_user.2) (sr_amount spend_data) "SUBTRACT" env s with
    | (Raise e, s') => (Raise e, s')
    | (Return new_balance, s') =>
        let t := {| t_id := get_next_id t_id (transactions_db s');
                    t_user_id := u_id current_user.2; t_timestamp := datetime_now env;
                    t_type := "SPEND"; t_amount := sr_amount spend_data;
                    t_description := sr_description spend_data; t_item_id := None |} in
        (Return (BalanceResponse (u_id current_user.2) (u_username current_user.2) new_balance),
         with_transactions_db (transactions_db s' ++ [t]) s')
    end.
Proof.
  unfold spend_money, bind, catch. cbv zeta.
  by destruct (update_user_balance _ _ _ env s) as [[new_balance|e] s'].
Qed.

Lemma buy_item_eq item_id current_user env s :
  buy_item item_id current_user env s =
    match list_find (fun i => i_id i = item_id) (items_db s) with
    | None => (Raise (ItemNotFound item_id), s)
    | Some (_, item) =>
        match update_user_balance (u_id current_user.2) (i_price item) "SUBTRACT" env s with
        | (Raise e, s') => (Raise e, s')
        | (Return new_balance, s') =>
            let t := {| t_id := get_next_id t_id (transactions_db s');
                        t_user_id := u_id current_user.2; t_timestamp := datetime_now env;
                        t_type := "BUY"; t_amount := i_price item;
                        t_description := "Purchased: " ++ i_name item;
                        t_item_id := Some item_id |} in
            (Return (BalanceResponse (u_id current_user.2) (u_username current_user.2) new_balance),
             with_transactions_db (transactions_db s' ++ [t]) s')
        end
    end.
Proof.
  unfold buy_item, bind, gets, catch. cbv zeta.
  destruct (list_find _ (items_db s)) as [[j item]|]; [|done].
  by destruct (update_user_balance _ _ _ env s) as [[new_balance|e] s'].
Qed.

(** ** Looking a stored user up by its id *)

Lemma list_find_by_id (l : list User) i u :
  NoDup (u_id <$> l) -> l !! i = Some u ->
  list_find (fun v => u_id v = u_id u) l = Some (i, u).
Proof.
  intros Hnd Hi. apply list_find_Some. split; [done|]. split; [done|].
  intros j y Hj Hlt Heq.
  assert (i = j) as ->; [|lia].
  eapply NoDup_lookup; [exact Hnd| |]; rewrite list_lookup_fmap.
  - by rewrite Hi.
  - rewrite Hj. simpl. by rewrite Heq.
Qed.

Lemma ltb_irrefl x : ltb x x = false.
Proof.
  destruct x as [sx|[]| |[] m e]; try done; unfold ltb, SFltb, SFcompare;
    rewrite Z.compare_refl, Pos.compare_cont_refl; done.
Qed.

(** The subtraction step shared by [spend_money] and [buy_item], for the
    user object the endpoint received. *)
Lemma update_user_balance_subtract env s i u amount :
  NoDup (u_id <$> users_db s) -> users_db s !! i = Some u ->
  update_user_balance (u_id u) amount "SUBTRACT" env s =
    if ltb (u_balance u) amount then (Raise InsufficientFunds, s)
    else
      let new_balance := round (sub (u_balance u) amount) 2 in
      (Return new_balance,
       with_users_db (<[i := with_balance u new_balance]> (users_db s)) s).
Proof.
  intros Hnd Hi. rewrite update_user_balance_eq.
  by rewrite (list_find_by_id _ i u Hnd Hi).
Qed.

(** ** Failures do not mutate *)

Lemma update_user_balance_raise user_id amount operation env s e s' :
  update_user_balance user_id amount operation env s = (Raise e, s') -> s' = s.
Proof.
  rewrite update_user_balance_eq.
  destruct (list_find _ (users_db s)) as [[i u]|]; [|congruence]. cbv zeta.
  repeat case_match; congruence.
Qed.

Lemma create_user_record_raise user env s e s' :
  create_user_record user env s = (Raise e, s') -> s' = s.
Proof.
  rewrite create_user_record_eq. repeat case_match; cbv zeta; congruence.
Qed.

Lemma get_current_user_state token env s :
  (get_current_user token env s).2 = s.
Proof. rewrite get_current_user_eq. by repeat case_match. Qed.

Lemma Depends_get_current_user_state authorization env s :
  (Depends_get_current_user authorization env s).2 = s.
Proof.
  destruct authorization as [token|]; [|done].
  apply (get_current_user_state token env s).
Qed.

Lemma register_user_eq user env s :
  register_user user env s =
    match create_user_record user env s with
    | (Return new_user, s') => (Return (UserBase (u_username new_user.2)), s')
    | (Raise (HTTPException status_code detail), s') =>
        (Raise (HTTPException status_code detail), s')
    | (Raise _, s') => (Raise RegistrationFailed, s')
    end.
Proof.
  unfold register_user, catch, bind.
  by destruct (create_user_record user env s) as [[r|[]] s'].
Qed.

(** Resolving the dependency of an authenticated endpoint: either the
    request is rejected in the state it arrived in, or the endpoint runs on
    the user [r] in that same state. *)
Ltac resolve_current_user authorization env s r :=
  let Hs := fresh "Hs" in
  let s0 := fresh "s" in
  pose proof (Depends_get_current_user_state authorization env s) as Hs;
  destruct (Depends_get_current_user authorization env s) as [[r|?] s0];
  simpl in Hs; subst s0; cbv beta iota.

Lemma spend_money_raise spend_data current_user env s e s' :
  spend_money spend_data current_user env s = (Raise e, s') -> s' = s.
Proof.
  rewrite spend_money_eq.
  destruct (update_user_balance _ _ _ env s) as [[b|e0] s0] eqn:Hu; cbv zeta; [done|].
  intros [= <- <-]. by eapply update_user_balance_raise.
Qed.

Lemma buy_item_raise item_id current_user env s e s' :
  buy_item item_id current_user env s = (Raise e, s') -> s' = s.
Proof.
  rewrite buy_item_eq.
  destruct (list_find _ (items_db s)) as [[j item]|]; [|congruence].
  destruct (update_user_balance _ _ _ env s) as [[b|e0] s0] eqn:Hu; cbv zeta; [done|].
  intros [= <- <-]. by eapply update_user_balance_raise.
Qed.

Lemma handle_raise request env s e s' :
  handle request env s = (Raise e, s') -> s' = s.
Proof.
  destruct request
    as [user|username password|authorization|authorization spend_data|
        |authorization item_id| |];
    unfold handle, bind.
  - unfold validate. destruct (6 <=? _); cbn; [|congruence].
    rewrite register_user_eq.
    destruct (create_user_record user env s) as [[r|e0] s0] eqn:Hc; [done|].
    apply create_user_record_raise in Hc as ->. destruct e0; congruence.
  - unfold validate. destruct (_ && _); cbn; [|congruence].
    unfold login_for_access_token, bind, get_user, gets, ask. cbn.
    repeat case_match; unfold raise, ret; congruence.
  - resolve_current_user authorization env s r; unfold get_balance, ret; congruence.
  - resolve_current_user authorization env s r; [|congruence].
    unfold validate_amount. destruct (ltb zero _); cbn;
      [|destruct (sr_amount spend_data); cbn; congruence].
    apply spend_money_raise.
  - unfold list_items, bind, gets, ret. congruence.
  - resolve_current_user authorization env s r; [|congruence].
    apply buy_item_raise.
  - unfold get_all_transactions, bind, gets, ret. congruence.
  - unfold get_all_users, bind, gets, ret. congruence.
Qed.

(** ** The effect of one request on the state *)

Lemma update_user_balance_subtract_effect user_id amount env s :
  match update_user_balance user_id amount "SUBTRACT" env s with
  | (Raise _, s') => s' = s
  | (Return _, s') =>
      exists i u,
        users_db s !! i = Some u /\
        ltb (u_balance u) amount = false /\
        s' = with_users_db
               (<[i := with_balance u (round (sub (u_balance u) amount) 2)]> (users_db s)) s
  end.
Proof.
  rewrite update_user_balance_eq.
  destruct (list_find _ (users_db s)) as [[i u]|] eqn:Hf; [|done].
  apply list_find_Some in Hf as (Hi & _ & _). cbn.
  destruct (ltb (u_balance u) amount) eqn:Hlt; [done|]. by exists i, u.
Qed.

Lemma spend_money_effect spend_data current_user env s :
  let s' := (spend_money spend_data current_user env s).2 in
  s' = s \/ debited (sr_amount spend_data) s s'.
Proof.
  cbv zeta. rewrite spend_money_eq.
  pose proof (update_user_balance_subtract_effect
                (u_id current_user.2) (sr_amount spend_data) env s) as Hu.
  destruct (update_user_balance _ _ _ env s) as [[b|e] s0]; [|by left].
  destruct Hu as (i & u & Hi & Hlt & ->). right. cbn.
  eexists i, u, _. done.
Qed.

Lemma buy_item_effect item_id current_user env s :
  let s' := (buy_item item_id current_user env s).2 in
  s' = s \/ exists item, item ∈ items_db s /\ debited (i_price item) s s'.
Proof.
  cbv zeta. rewrite buy_item_eq.
  destruct (list_find _ (items_db s)) as [[j item]|] eqn:Hf; [|by left].
  apply list_find_Some in Hf as (Hj & _ & _).
  pose proof (update_user_balance_subtract_effect
                (u_id current_user.2) (i_price item) env s) as Hu.
  destruct (update_user_balance _ _ _ env s) as [[b|e] s0]; [|by left].
  destruct Hu as (i & u & Hi & Hlt & ->). right. cbn.
  exists item. split; [by eapply list_elem_of_lookup_2|].
  eexists i, u, _. done.
Qed.

Lemma create_user_record_effect user env s :
  let s' := (create_user_record user env s).2 in
  s' = s \/ registered s s'.
Proof.
  cbv zeta. rewrite create_user_record_eq.
  destruct (list_find _ (users_db s)); [by left|].
  destruct (pwd_context_hash env (uc_password user)); [|by left]. right. cbn.
  eexists _, _. done.
Qed.

Lemma handle_effect request env s :
  let s' := (handle request env s).2 in
  s' = s \/
  registered s s' \/
  (exists authorization spend_data,
     request = POST_wallet_spend authorization spend_data /\
     ltb zero (sr_amount spend_data) = true /\
     debited (sr_amount spend_data) s s') \/
  (exists item, item ∈ items_db s /\ debited (i_price item) s s').
Proof.
  cbv zeta.
  destruct request
    as [user|username password|authorization|authorization spend_data|
        |authorization item_id| |];
    unfold handle, bind.
  - unfold validate. destruct (6 <=? _); cbn; [|by left].
    rewrite register_user_eq.
    pose proof (create_user_record_effect user env s) as He. cbv zeta in He.
    destruct (create_user_record user env s) as [[r|[]] s0]; cbn in *; tauto.
  - left. unfold validate. destruct (_ && _); cbn; [|done].
    unfold login_for_access_token, bind, get_user, gets, ask. cbn.
    repeat case_match; done.
  - left. by resolve_current_user authorization env s r.
  - resolve_current_user authorization env s r; [|by left].
    unfold validate_amount. destruct (ltb zero _) eqn:Hpos; cbn;
      [|left; by destruct (sr_amount spend_data)].
    destruct (spend_money_effect spend_data r env s) as [->|Hd]; [by left|].
    right. right. left. by exists authorization, spend_data.
  - by left.
  - resolve_current_user authorization env s r; [|by left].
    destruct (buy_item_effect item_id r env s) as [->|Hd]; [by left|].
    by do 3 right.
  - by left.
  - by left.
Qed.

(** ** Identifiers *)

Lemma foldl_max_spec (a : Z) (l : list Z) :
  let m := foldl Z.max a l in
  m ∈ a :: l /\ Forall (fun y => y <= m) (a :: l).
Proof.
  revert a. induction l as [|b l IH]; intros a; cbn.
  - split; [left|]. repeat constructor. lia.
  - destruct (IH (Z.max a b)) as [Hin Hall]. cbv zeta in *.
    apply Forall_cons in Hall as [Hab Hall]. split.
    + rewrite !elem_of_cons in *.
      destruct Hin as [Heq|Hin]; [|tauto].
      rewrite Heq. destruct (Z.max_spec a b) as [[_ ->]|[_ ->]]; tauto.
    + repeat constructor; [lia..|done].
Qed.

Lemma get_next_id_max {A} (id : A -> Z) (db : list A) :
  db <> [] ->
  exists x, x ∈ db /\ get_next_id id db = id x + 1 /\
            forall y, y ∈ db -> id y <= id x.
Proof.
  destruct db as [|item rest]; [done|]. intros _. unfold get_next_id.
  destruct (foldl_max_spec (id item) (id <$> rest)) as [Hin Hall]. cbv zeta in *.
  change (id item :: (id <$> rest)) with (id <$> item :: rest) in Hin, Hall.
  apply list_elem_of_fmap in Hin as (x & Hx & Hin).
  exists x. split; [done|]. split; [by rewrite Hx|].
  intros y Hy. rewrite <- Hx.
  rewrite Forall_forall in Hall. apply Hall. by apply list_elem_of_fmap_2.
Qed.

Lemma get_next_id_fresh {A} (id : A -> Z) (db : list A) y :
  y ∈ db -> id y < get_next_id id db.
Proof.
  intros Hy. destruct (get_next_id_max id db) as (x & _ & -> & Hmax).
  - intros ->. by apply not_elem_of_nil in Hy.
  - specialize (Hmax y Hy). lia.
Qed.

Lemma StronglySorted_lt_NoDup (l : list Z) : StronglySorted Z.lt l -> NoDup l.
Proof.
  induction 1 as [|x l _ IH Hall]; constructor; [|done].
  intros Hin. rewrite Forall_forall in Hall. specialize (Hall x Hin). lia.
Qed.

Lemma ids_sorted_snoc {A} (id : A -> Z) (db : list A) x :
  StronglySorted Z.lt (id <$> db) -> id x = get_next_id id db ->
  StronglySorted Z.lt (id <$> (db ++ [x])%list).
Proof.
  intros Hs Hx. rewrite fmap_app. apply StronglySorted_app_2; [|done|].
  - intros a b (y & -> & Hy)%list_elem_of_fmap Hb. cbn in Hb.
    apply list_elem_of_singleton in Hb as ->. rewrite Hx.
    by apply get_next_id_fresh.
  - cbn. repeat constructor.
Qed.

Lemma ids_insert_balance (l : list User) i u b :
  l !! i = Some u -> u_id <$> <[i := with_balance u b]> l = u_id <$> l.
Proof.
  intros Hi. rewrite list_fmap_insert. apply list_insert_id.
  rewrite list_lookup_fmap, Hi. done.
Qed.

Lemma debited_ids amount s s' :
  debited amount s s' -> ids_increasing s -> ids_increasing s'.
Proof.
  intros (i & u & t & Hi & _ & -> & Ht) [Hu Htx]. split; cbn.
  - by rewrite ids_insert_balance.
  - by apply ids_sorted_snoc.
Qed.

Lemma handle_ids_increasing request env s :
  ids_increasing s -> ids_increasing (handle request env s).2.
Proof.
  intros Hinv.
  destruct (handle_effect request env s)
    as [->|[(u & t & -> & Hu & _ & Ht)|[(? & ? & _ & _ & Hd)|(? & _ & Hd)]]];
    [done| |by eapply debited_ids..].
  destruct Hinv as [Hus Hts]. split; cbn; by apply ids_sorted_snoc.
Qed.

Lemma run_invariant (P : State -> Prop) (Q : Env * Request -> bool) trace s :
  (forall env request s, Q (env, request) = true -> P s -> P (handle request env s).2) ->
  forallb Q trace = true -> P s -> P (run trace s).
Proof.
  intros Hstep. revert s. induction trace as [|[env request] trace IH]; intros s HQ Hs.
  - done.
  - cbn in HQ. apply andb_true_iff in HQ as [Hq HQ].
    apply (IH _ HQ). by apply Hstep.
Qed.

(** ** Balances *)

Lemma seed_prices_positive :
  Forall (fun item => valid (i_price item) = true /\ ltb zero (i_price item) = true)
    seed_data.
Proof. repeat constructor. Qed.

Lemma INITIAL_BALANCE_nonneg_finite : nonneg_finite INITIAL_BALANCE = true.
Proof. reflexivity. Qed.

Lemma nonneg_finite_leb x : nonneg_finite x = true -> leb zero x = true.
Proof. destruct x as [sx|sx| |[] m e]; done. Qed.

Lemma debited_balances amount s s' :
  valid amount = true -> ltb zero amount = true ->
  debited amount s s' -> balances_nonneg_finite s -> balances_nonneg_finite s'.
Proof.
  intros Hv Hpos (i & u & t & Hi & Hlt & -> & _) [Hb Hitems]. split; [|done]. cbn.
  apply Forall_insert; [done|]. cbn.
  apply round_nonneg_finite, sub_nonneg_finite; try done.
  rewrite Forall_lookup in Hb. by apply (Hb i u).
Qed.

Lemma handle_balances request env s :
  request_floats_valid request = true ->
  balances_nonneg_finite s -> balances_nonneg_finite (handle request env s).2.
Proof.
  intros Hreq Hinv.
  destruct (handle_effect request env s)
    as [->|[(u & t & -> & _ & Hu & _)|[(auth & sd & -> & Hpos & Hd)|(item & Hin & Hd)]]].
  - done.
  - destruct Hinv as [Hb Hitems]. split; [|done]. cbn.
    apply Forall_app. split; [done|]. repeat constructor.
    rewrite Hu. apply INITIAL_BALANCE_nonneg_finite.
  - by eapply debited_balances.
  - pose proof seed_prices_positive as Hseed.
    destruct Hinv as [Hb Hitems]. rewrite <- Hitems, Forall_forall in Hseed.
    destruct (Hseed item Hin) as [Hv Hpos].
    by eapply debited_balances.
Qed.

Lemma list_find_insert_same {A} (P : A -> Prop) `{!forall x, Decision (P x)}
    (l : list A) i x y :
  list_find P l = Some (i, x) -> P y -> list_find P (<[i := y]> l) = Some (i, y).
Proof.
  intros (Hi & _ & Hbefore)%list_find_Some Hy. apply list_find_Some.
  split; [by apply list_lookup_insert_eq; eapply lookup_lt_Some|]. split; [done|].
  intros j z Hj Hlt. rewrite list_lookup_insert_ne in Hj by lia.
  by apply (Hbefore j).
Qed.

Lemma handle_spend_eq token spend_data env s :
  handle (POST_wallet_spend (Some token) spend_data) env s =
    match get_current_user token env s with
    | (Return r, s') =>
        if ltb zero (sr_amount spend_data) then spend_money spend_data r env s'
        else
          match sr_amount spend_data with
          | S754_nan | S754_infinity _ => (Raise OtherException, s')
          | _ => (Raise RequestValidationError, s')
          end
    | (Raise e, s') => (Raise e, s')
    end.
Proof.
  unfold handle, bind, Depends_get_current_user, oauth2_scheme, bind, ret,
    validate_amount.
  destruct (get_current_user token env s) as [[r|e] s']; [|done].
  destruct (ltb zero (sr_amount spend_data)); [done|].
  by destruct (sr_amount spend_data).
Qed.

(** * The claims *)

Example scenario_balances :
  u_balance <$> users_db (run (take 1 scenario) initial_state) = [literal 100 0] /\
  u_balance <$> users_db (run (take 2 scenario) initial_state) = [literal 70 0] /\
  u_balance <$> users_db (run (take 3 scenario) initial_state) = [literal 445 1] /\
  u_balance <$> users_db (run scenario initial_state) = [literal 445 1] /\
  t_type <$> transactions_db (run scenario initial_state) = ["REGISTER"; "SPEND"; "BUY"].
Proof. repeat split. Qed.

(** Rounding after the subtraction can restore the balance: from 100.00,
    spending 99.99 leaves 0.01, and each further spend of 0.005 succeeds,
    is recorded, and leaves 0.01 ([0.01 - 0.005] is the float 0.005, a hair
    above the decimal 0.005, which rounds to 0.01). *)
Example sub_cent_spend_keeps_balance :
  let trace :=
    [ (example_env, register_alice);
      (example_env, spend "alice" (literal 9999 2));
      (example_env, spend "alice" (literal 5 3));
      (example_env, spend "alice" (literal 5 3)) ] in
  u_balance <$> users_db (run (take 2 trace) initial_state) = [literal 1 2] /\
  u_balance <$> users_db (run trace initial_state) = [literal 1 2] /\
  t_type <$> transactions_db (run trace initial_state) =
    ["REGISTER"; "SPEND"; "SPEND"; "SPEND"].
Proof. repeat split. Qed.

(** C1.  Starting from the freshly seeded store, after every request of
    every sequence of requests (registrations, spends, purchases and the
    read-only endpoints, each in its own environment, the spend amounts
    being binary64 numbers) every user's balance [b], which has been
    rounded to 2 decimals by then, satisfies [0 <= b]. *)
Theorem balance_never_negative (trace : list (Env * Request)) :
  forallb (fun step => request_floats_valid step.2) trace = true ->
  forall served rest, trace = (served ++ rest)%list ->
  Forall (fun u => leb zero (u_balance u) = true)
    (users_db (run served initial_state)).
Proof.
  intros Hvalid served rest ->.
  rewrite forallb_app in Hvalid. apply andb_true_iff in Hvalid as [Hvalid _].
  assert (Hinv : balances_nonneg_finite (run served initial_state)).
  { apply (run_invariant _ (fun step => request_floats_valid step.2)); [|done|].
    - intros env request s. apply handle_balances.
    - split; [constructor|done]. }
  destruct Hinv as [Hb _].
  eapply Forall_impl; [exact Hb|]. intros u. apply nonneg_finite_leb.
Qed.

Lemma balance_never_negative_witness :
  forallb (fun step => request_floats_valid step.2) scenario = true /\
  Forall (fun u => leb zero (u_balance u) = true)
    (users_db (run (take 3 scenario) initial_state)).
Proof.
  split; [reflexivity|].
  apply (balance_never_negative scenario eq_refl (take 3 scenario) (drop 3 scenario)).
  reflexivity.
Defined.

(** C2.  For a stored user (the object the endpoint received, in a store
    whose user ids are distinct) and any amount, [spend_money] fails with
    InsufficientFunds exactly when [balance < amount], and it fails in no
    other way; otherwise it answers the new balance [round(balance - amount,
    2)], stores it in that user, and appends exactly one ledger entry of
    type SPEND with that amount and that user's id.  Spending exactly the
    balance succeeds. *)
Theorem spend_money_spec env s i u spend_data :
  NoDup (u_id <$> users_db s) -> users_db s !! i = Some u ->
  let amount := sr_amount spend_data in
  let new_balance := round (sub (u_balance u) amount) 2 in
  (spend_money spend_data (i, u) env s = (Raise InsufficientFunds, s) <->
   ltb (u_balance u) amount = true) /\
  ((exists e s', spend_money spend_data (i, u) env s = (Raise e, s')) <->
   ltb (u_balance u) amount = true) /\
  (ltb (u_balance u) amount = false ->
   exists t,
     spend_money spend_data (i, u) env s =
       (Return (BalanceResponse (u_id u) (u_username u) new_balance),
        {| users_db := <[i := with_balance u new_balance]> (users_db s);
           items_db := items_db s;
           transactions_db := transactions_db s ++ [t] |}) /\
     t_type t = "SPEND" /\ t_amount t = amount /\ t_user_id t = u_id u /\
     t_item_id t = None) /\
  (amount = u_balance u -> ltb (u_balance u) amount = false).
Proof.
  intros Hnd Hi. cbv zeta.
  rewrite spend_money_eq. cbn [fst snd].
  rewrite (update_user_balance_subtract env s i u _ Hnd Hi).
  destruct (ltb (u_balance u) (sr_amount spend_data)) eqn:Hlt; cbv zeta.
  - repeat split; try done.
    + by exists InsufficientFunds, s.
    + intros Heq. by rewrite Heq, ltb_irrefl in Hlt.
  - repeat split; try done.
    + by intros (e & s' & ?).
    + intros _. eexists. split; [reflexivity|done].
Qed.

Lemma spend_money_spec_witness :
  NoDup (u_id <$> users_db alice_state) /\
  users_db alice_state !! 0%nat = Some alice /\
  (spend_money {| sr_amount := literal 30 0; sr_description := "x" |}
     (0%nat, alice) example_env alice_state).1 =
    Return (BalanceResponse 1 "alice" (literal 70 0)).
Proof.
  assert (Hnd : NoDup (u_id <$> users_db alice_state)) by apply NoDup_singleton.
  split; [exact Hnd|]. split; [reflexivity|].
  destruct (spend_money_spec example_env alice_state 0%nat alice
              {| sr_amount := literal 30 0; sr_description := "x" |} Hnd eq_refl)
    as (_ & _ & Hok & _).
  destruct (Hok eq_refl) as (t & -> & _). reflexivity.
Defined.

(** C3.  For a stored user (in a store whose user ids are distinct) and any
    item id: when no catalogue item has that id, [buy_item] fails with
    ItemNotFound and the state is unchanged; when the item found has a price
    above the balance ([balance < price]) it fails with InsufficientFunds;
    otherwise it answers [round(balance - price, 2)], stores it in that
    user, and appends exactly one ledger entry of type BUY whose amount is
    the price, whose item_id is the requested id and whose user_id is the
    buyer's. *)
Theorem buy_item_spec env s i u item_id :
  NoDup (u_id <$> users_db s) -> users_db s !! i = Some u ->
  ((forall item, item ∈ items_db s -> i_id item <> item_id) ->
   buy_item item_id (i, u) env s = (Raise (ItemNotFound item_id), s)) /\
  (forall j item,
     list_find (fun it => i_id it = item_id) (items_db s) = Some (j, item) ->
     let new_balance := round (sub (u_balance u) (i_price item)) 2 in
     (ltb (u_balance u) (i_price item) = true ->
      buy_item item_id (i, u) env s = (Raise InsufficientFunds, s)) /\
     (ltb (u_balance u) (i_price item) = false ->
      exists t,
        buy_item item_id (i, u) env s =
          (Return (BalanceResponse (u_id u) (u_username u) new_balance),
           {| users_db := <[i := with_balance u new_balance]> (users_db s);
              items_db := items_db s;
              transactions_db := transactions_db s ++ [t] |}) /\
        t_type t = "BUY" /\ t_amount t = i_price item /\
        t_item_id t = Some item_id /\ t_user_id t = u_id u)).
Proof.
  intros Hnd Hi. rewrite buy_item_eq. cbn [fst snd]. split.
  - intros Hnone.
    destruct (list_find _ (items_db s)) as [[j item]|] eqn:Hf; [|done].
    apply list_find_Some in Hf as (Hj & Hid & _).
    destruct (Hnone item); [by eapply list_elem_of_lookup_2|done].
  - intros j item ->. cbv zeta.
    rewrite (update_user_balance_subtract env s i u _ Hnd Hi).
    split; intros ->; [done|]. cbv zeta.
    eexists. split; [reflexivity|done].
Qed.

Lemma buy_item_spec_witness :
  NoDup (u_id <$> users_db alice_state) /\
  users_db alice_state !! 0%nat = Some alice /\
  buy_item 999 (0%nat, alice) example_env alice_state =
    (Raise (HTTPException 404 "Item with ID 999 not found."), alice_state) /\
  (buy_item 2 (0%nat, alice) example_env alice_state).1 =
    Return (BalanceResponse 1 "alice" (literal 745 1)).
Proof.
  assert (Hnd : NoDup (u_id <$> users_db alice_state)) by apply NoDup_singleton.
  split; [exact Hnd|]. split; [reflexivity|].
  split.
  - destruct (buy_item_spec example_env alice_state 0%nat alice 999 Hnd eq_refl)
      as [Hnone _].
    apply Hnone. intros item Hin.
    repeat (apply elem_of_cons in Hin as [->|Hin]; [discriminate|]).
    by apply elem_of_nil in Hin.
  - destruct (buy_item_spec example_env alice_state 0%nat alice 2 Hnd eq_refl)
      as [_ Hsome].
    destruct (Hsome 1%nat _ eq_refl) as [_ Hok].
    destruct (Hok eq_refl) as (t & -> & _). reflexivity.
Defined.

(** C4 (as stated, refuted).  With a free username and a password on which
    the hasher raises, here one with a NUL byte, nothing is created:
    [create_user_record] raises before its first write and the endpoint
    answers 500 "Registration failed.". *)
Lemma create_user_record_hasher_counterexample :
  (forall v, v ∈ users_db alice_state -> u_username v <> uc_username bob_nul) /\
  (6 <= len (uc_password bob_nul))%nat /\
  create_user_record bob_nul example_env alice_state =
    (Raise OtherException, alice_state) /\
  handle (POST_auth_register bob_nul) example_env alice_state =
    (Raise RegistrationFailed, alice_state) /\
  ~ (exists new_user s',
       create_user_record bob_nul example_env alice_state = (Return new_user, s')).
Proof.
  split.
  { intros v Hin. apply list_elem_of_singleton in Hin as ->. discriminate. }
  split; [apply Nat.leb_le; reflexivity|]. split; [reflexivity|]. split; [reflexivity|].
  intros (new_user & s' & H). discriminate H.
Qed.

(** C4 (amended).  [create_user_record]: if some stored user already has
    the requested username it fails with DuplicateUsername and the state is
    unchanged; otherwise, when the password hasher returns a hash, it
    appends exactly one user, with that username, that hash and balance
    [INITIAL_BALANCE], and exactly one ledger entry, of type REGISTER, amount
    [INITIAL_BALANCE] and the new user's id, the catalogue being untouched;
    and when the hasher raises, it raises too, the state is unchanged and
    [register_user] answers 500 "Registration failed.".  [INITIAL_BALANCE]
    is the float 100. *)
Theorem create_user_record_spec user env s :
  ((exists v, v ∈ users_db s /\ u_username v = uc_username user) ->
   create_user_record user env s = (Raise DuplicateUsername, s)) /\
  ((forall v, v ∈ users_db s -> u_username v <> uc_username user) ->
   (forall hashed_password,
      pwd_context_hash env (uc_password user) = Some hashed_password ->
      exists new_user t,
        create_user_record user env s =
          (Return (length (users_db s), new_user),
           {| users_db := users_db s ++ [new_user];
              items_db := items_db s;
              transactions_db := transactions_db s ++ [t] |}) /\
        u_username new_user = uc_username user /\
        u_hashed_password new_user = hashed_password /\
        u_id new_user = get_next_id u_id (users_db s) /\
        u_balance new_user = INITIAL_BALANCE /\
        t_id t = get_next_id t_id (transactions_db s) /\
        t_type t = "REGISTER" /\ t_amount t = INITIAL_BALANCE /\
        t_user_id t = u_id new_user) /\
   (pwd_context_hash env (uc_password user) = None ->
    create_user_record user env s = (Raise OtherException, s) /\
    register_user user env s = (Raise RegistrationFailed, s))) /\
  (exists m, INITIAL_BALANCE = S754_finite false m (-46) /\ Zpos m = 100 * 2 ^ 46).
Proof.
  rewrite register_user_eq, create_user_record_eq. split; [|split].
  - intros (v & Hin & Hname).
    destruct (list_find _ (users_db s)) as [r|] eqn:Hf; [done|].
    apply list_find_None in Hf. rewrite Forall_forall in Hf. by destruct (Hf v).
  - intros Hfresh.
    destruct (list_find _ (users_db s)) as [[j v]|] eqn:Hf.
    { apply list_find_Some in Hf as (Hj & Hname & _).
      destruct (Hfresh v); [by eapply list_elem_of_lookup_2|done]. }
    split.
    + intros hashed_password ->. cbv zeta. eexists _, _. split; [reflexivity|done].
    + by intros ->.
  - by exists 7036874417766400%positive.
Qed.

Lemma create_user_record_spec_witness :
  (exists v, v ∈ users_db alice_state /\ u_username v = "alice") /\
  create_user_record {| uc_username := "alice"; uc_password := "another" |}
    example_env alice_state = (Raise DuplicateUsername, alice_state) /\
  (forall v, v ∈ users_db initial_state -> u_username v <> "alice") /\
  pwd_context_hash example_env "secret1" = Some "hashed:secret1" /\
  (exists new_user,
     (create_user_record {| uc_username := "alice"; uc_password := "secret1" |}
        example_env initial_state).1 = Return (0%nat, new_user) /\
     u_balance new_user = literal 100 0) /\
  pwd_context_hash example_env (uc_password bob_nul) = None /\
  register_user {| uc_username := "alice"; uc_password := uc_password bob_nul |}
    example_env initial_state = (Raise RegistrationFailed, initial_state).
Proof.
  assert (Hdup : exists v, v ∈ users_db alice_state /\ u_username v = "alice").
  { exists alice. split; [apply elem_of_cons; by left|reflexivity]. }
  assert (Hfresh : forall v, v ∈ users_db initial_state -> u_username v <> "alice").
  { intros v Hin. by apply elem_of_nil in Hin. }
  split; [exact Hdup|]. split; [|split; [exact Hfresh|split; [reflexivity|split]]].
  - exact (proj1 (create_user_record_spec
                    {| uc_username := "alice"; uc_password := "another" |}
                    example_env alice_state) Hdup).
  - destruct (proj1 (proj1 (proj2 (create_user_record_spec
                    {| uc_username := "alice"; uc_password := "secret1" |}
                    example_env initial_state)) Hfresh) "hashed:secret1" eq_refl)
      as (new_user & t & -> & _ & _ & _ & Hb & _).
    exists new_user. split; [reflexivity|]. rewrite Hb. reflexivity.
  - split; [reflexivity|].
    exact (proj2 (proj2 (proj1 (proj2 (create_user_record_spec
                    {| uc_username := "alice"; uc_password := uc_password bob_nul |}
                    example_env initial_state)) Hfresh) eq_refl)).
Defined.

(** C5.  An operation that ends in an exception, whichever it is, leaves
    the three tables exactly as they were: nothing was appended and no
    balance was rewritten, not even by the rounding step.  This holds for
    every request served through its endpoint and for the service functions
    on arbitrary arguments. *)
Theorem failed_operation_leaves_stores_unchanged :
  (forall request env s e s',
     handle request env s = (Raise e, s') -> s' = s) /\
  (forall user env s e s',
     create_user_record user env s = (Raise e, s') -> s' = s) /\
  (forall spend_data current_user env s e s',
     spend_money spend_data current_user env s = (Raise e, s') -> s' = s) /\
  (forall item_id current_user env s e s',
     buy_item item_id current_user env s = (Raise e, s') -> s' = s) /\
  (forall user_id amount operation env s e s',
     update_user_balance user_id amount operation env s = (Raise e, s') -> s' = s).
Proof.
  repeat split.
  - apply handle_raise.
  - apply create_user_record_raise.
  - apply spend_money_raise.
  - apply buy_item_raise.
  - apply update_user_balance_raise.
Qed.

Lemma failed_operation_leaves_stores_unchanged_witness :
  (handle (spend "alice" (literal 1000 0)) example_env alice_state).1 =
    Raise InsufficientFunds /\
  (handle (spend "alice" (literal 1000 0)) example_env alice_state).2 = alice_state /\
  (update_user_balance 7 (literal 1 0) "SUBTRACT" example_env alice_state).1 =
    Raise UserNotFound /\
  (update_user_balance 7 (literal 1 0) "SUBTRACT" example_env alice_state).2 =
    alice_state.
Proof.
  split; [reflexivity|]. split; [|split; [reflexivity|]].
  - exact (proj1 failed_operation_leaves_stores_unchanged
             (spend "alice" (literal 1000 0)) example_env alice_state
             InsufficientFunds
             (handle (spend "alice" (literal 1000 0)) example_env alice_state).2
             eq_refl).
  - exact (proj2 (proj2 (proj2 (proj2 failed_operation_leaves_stores_unchanged)))
             7 (literal 1 0) "SUBTRACT" example_env alice_state
             UserNotFound
             (update_user_balance 7 (literal 1 0) "SUBTRACT" example_env alice_state).2
             eq_refl).
Defined.

Lemma run_ids_increasing trace : ids_increasing (run trace initial_state).
Proof.
  apply (run_invariant ids_increasing (fun _ => true)).
  - intros env request s _. apply handle_ids_increasing.
  - by induction trace.
  - split; constructor.
Qed.

(** C6.  [get_next_id] answers 1 for an empty table and the largest stored
    id plus one otherwise, so the id it hands out exceeds every id of the
    table; along any sequence of requests from the freshly seeded store the
    ids of [users_db] and of [transactions_db] are strictly increasing in
    insertion order, hence pairwise distinct. *)
Theorem ids_increasing_never_reused :
  (forall A (id : A -> Z), get_next_id id [] = 1) /\
  (forall A (id : A -> Z) (db : list A),
     db <> [] ->
     exists x, x ∈ db /\ get_next_id id db = id x + 1 /\
               forall y, y ∈ db -> id y <= id x) /\
  (forall A (id : A -> Z) (db : list A) y, y ∈ db -> id y < get_next_id id db) /\
  (forall trace,
     let s := run trace initial_state in
     StronglySorted Z.lt (u_id <$> users_db s) /\
     StronglySorted Z.lt (t_id <$> transactions_db s) /\
     NoDup (u_id <$> users_db s) /\
     NoDup (t_id <$> transactions_db s)).
Proof.
  split; [done|]. split; [intros; by apply get_next_id_max|].
  split; [intros; by apply get_next_id_fresh|].
  intros trace s. destruct (run_ids_increasing trace) as [Hu Ht].
  repeat split; try done; by apply StronglySorted_lt_NoDup.
Qed.

Lemma ids_increasing_never_reused_witness :
  [alice] <> [] /\
  get_next_id u_id [alice] = 2 /\
  t_id <$> transactions_db (run scenario initial_state) = [1; 2; 3] /\
  NoDup (t_id <$> transactions_db (run scenario initial_state)).
Proof.
  split; [discriminate|]. split; [reflexivity|]. split; [reflexivity|].
  exact (proj2 (proj2 (proj2 (proj2 (proj2 (proj2 ids_increasing_never_reused))
                                scenario)))).
Defined.

(** C7.  The ledger is append-only: whatever the request (including the
    read-only endpoints) and the state, the ledger afterwards is the ledger
    before, or the ledger before followed by exactly one new entry; and
    [record_transaction] itself always returns, having appended the entry it
    returns and changed nothing else. *)
Theorem ledger_append_only :
  (forall request env s,
     let s' := (handle request env s).2 in
     transactions_db s' = transactions_db s \/
     exists t, transactions_db s' = (transactions_db s ++ [t])%list) /\
  (forall user_id amount type description item_id env s,
     exists t,
       record_transaction user_id amount type description item_id env s =
         (Return t,
          {| users_db := users_db s; items_db := items_db s;
             transactions_db := transactions_db s ++ [t] |}) /\
       t_id t = get_next_id t_id (transactions_db s) /\
       t_user_id t = user_id /\ t_amount t = amount /\ t_type t = type /\
       t_description t = description /\ t_item_id t = item_id /\
       t_timestamp t = datetime_now env).
Proof.
  split.
  - intros request env s s'. subst s'.
    destruct (handle_effect request env s)
      as [->|[(u & t & -> & _)|[(? & ? & _ & _ & Hd)|(? & _ & Hd)]]].
    + by left.
    + right. by exists t.
    + destruct Hd as (i & u & t & _ & _ & -> & _). right. by exists t.
    + destruct Hd as (i & u & t & _ & _ & -> & _). right. by exists t.
  - intros. rewrite record_transaction_eq. cbv zeta. eexists. split; [reflexivity|done].
Qed.

(** C8 (as stated, refuted).  A token that decodes to the user name "ghost",
    presented when no user of that name is stored, is not answered with
    UserNotFound: the verifier raises the very [credentials_exception] it
    raises for an undecodable token. *)
Lemma get_current_user_unknown_user_counterexample :
  jwt_decode example_env "ghost" = Some (Some "ghost") /\
  get_user "ghost" example_env alice_state = (Return None, alice_state) /\
  get_current_user "ghost" example_env alice_state <> (Raise UserNotFound, alice_state) /\
  get_current_user "ghost" example_env alice_state = (Raise InvalidCredential, alice_state) /\
  get_current_user "" example_env alice_state = (Raise InvalidCredential, alice_state).
Proof. repeat split. discriminate. Qed.

(** C8 (amended).  The session verifier has one failure mode: for every
    token it raises InvalidCredential (401) when the token does not decode,
    when the payload has no ["sub"] entry, and also when the claimed user
    name resolves to no stored user; when the name resolves it returns the
    first stored user of that name, and it never changes the state. *)
Theorem get_current_user_spec token env s :
  (jwt_decode env token = None ->
   get_current_user token env s = (Raise InvalidCredential, s)) /\
  (jwt_decode env token = Some None ->
   get_current_user token env s = (Raise InvalidCredential, s)) /\
  (forall username,
     jwt_decode env token = Some (Some username) ->
     ((forall v, v ∈ users_db s -> u_username v <> username) ->
      get_current_user token env s = (Raise InvalidCredential, s)) /\
     (forall i u,
        list_find (fun v => u_username v = username) (users_db s) = Some (i, u) ->
        get_current_user token env s = (Return (i, u), s))).
Proof.
  rewrite get_current_user_eq. split; [by intros ->|]. split; [by intros ->|].
  intros username ->. split.
  - intros Hnone.
    destruct (list_find _ (users_db s)) as [[j v]|] eqn:Hf; [|done].
    apply list_find_Some in Hf as (Hj & Hname & _).
    destruct (Hnone v); [by eapply list_elem_of_lookup_2|done].
  - by intros i u ->.
Qed.

Lemma get_current_user_spec_witness :
  jwt_decode example_env "alice" = Some (Some "alice") /\
  get_current_user "alice" example_env alice_state = (Return (0%nat, alice), alice_state) /\
  jwt_decode example_env "" = None /\
  get_current_user "" example_env alice_state = (Raise InvalidCredential, alice_state).
Proof.
  split; [reflexivity|]. split.
  - exact (proj2 (proj2 (proj2 (get_current_user_spec "alice" example_env alice_state))
                    "alice" eq_refl) 0%nat alice eq_refl).
  - split; [reflexivity|].
    exact (proj1 (get_current_user_spec "" example_env alice_state) eq_refl).
Defined.

Lemma serial_spends_le n amount b : ((serial_spends n amount b).1 <= n)%nat.
Proof.
  revert b. induction n as [|n IH]; intros b; cbn; [done|].
  destruct (ltb b amount).
  - specialize (IH b). lia.
  - specialize (IH (round (sub b amount) 2)).
    destruct (serial_spends n amount (round (sub b amount) 2)). cbn in *. lia.
Qed.

Lemma serial_spends_all_accepted n amount b :
  (serial_spends n amount b).1 = n <->
  (forall k, (k < n)%nat -> ltb (chain k amount b) amount = false).
Proof.
  revert b. induction n as [|n IH]; intros b; cbn.
  { split; [intros _ k; lia|done]. }
  destruct (ltb b amount) eqn:Hlt.
  - split.
    + pose proof (serial_spends_le n amount b). lia.
    + intros Hall. specialize (Hall 0%nat ltac:(lia)). cbn in Hall. congruence.
  - specialize (IH (round (sub b amount) 2)).
    destruct (serial_spends n amount (round (sub b amount) 2)) as [k b'] eqn:Hs.
    cbn in *. split.
    + intros Hk j Hj. destruct j as [|j]; [done|]. cbn.
      apply IH; lia.
    + intros Hall. f_equal. apply IH. intros j Hj.
      apply (Hall (S j)). lia.
Qed.

Lemma serial_spends_chain n amount b :
  (serial_spends n amount b).1 = n -> (serial_spends n amount b).2 = chain n amount b.
Proof.
  revert b. induction n as [|n IH]; intros b; cbn; [done|].
  destruct (ltb b amount) eqn:Hlt.
  - pose proof (serial_spends_le n amount b). lia.
  - specialize (IH (round (sub b amount) 2)).
    destruct (serial_spends n amount (round (sub b amount) 2)) as [k b'].
    cbn in *. intros [= ->]. by apply IH.
Qed.

Lemma with_balance_same u : with_balance u (u_balance u) = u.
Proof. by destruct u. Qed.

(** Spends of one user served one after the other: the state and the
    answers are those of [serial_spends]. *)
Lemma run_serial_spends trace token username spend_data s i u :
  NoDup (u_id <$> users_db s) ->
  list_find (fun v => u_username v = username) (users_db s) = Some (i, u) ->
  ltb zero (sr_amount spend_data) = true ->
  Forall (fun step => step.2 = POST_wallet_spend (Some token) spend_data /\
                      jwt_decode step.1 token = Some (Some username)) trace ->
  let outcome := serial_spends (length trace) (sr_amount spend_data) (u_balance u) in
  successes (answers trace s) = outcome.1 /\
  users_db (run trace s) = <[i := with_balance u outcome.2]> (users_db s) /\
  length (transactions_db (run trace s)) =
    (length (transactions_db s) + outcome.1)%nat.
Proof.
  intros Hnd Hf Hpos Htrace. revert s u Hnd Hf.
  induction Htrace as [|[env request] trace [Hreq Hdec] _ IH]; intros s u Hnd Hf.
  { cbn. pose proof Hf as (Hi & _)%list_find_Some.
    rewrite with_balance_same, list_insert_id by done. by rewrite Nat.add_0_r. }
  cbn in Hreq, Hdec. subst request.
  pose proof Hf as (Hi & Hname & _)%list_find_Some.
  cbn [answers run foldl length serial_spends fst snd].
  change (foldl (fun s step => (handle step.2 step.1 s).2) ?s0 trace)
    with (run trace s0).
  rewrite handle_spend_eq, get_current_user_eq, Hdec, Hf, Hpos, spend_money_eq.
  cbn [fst snd].
  rewrite (update_user_balance_subtract env s i u _ Hnd Hi).
  destruct (ltb (u_balance u) (sr_amount spend_data)) eqn:Hlt; cbn [fst snd successes].
  - by apply IH.
  - cbv zeta.
    set (b1 := round (sub (u_balance u) (sr_amount spend_data)) 2).
    match goal with |- context [run trace ?s0] => set (s1 := s0) end.
    destruct (IH s1 (with_balance u b1)) as (Hsucc & Husers & Hledger).
    { subst s1. cbn. by rewrite ids_insert_balance. }
    { subst s1. cbn. by apply (list_find_insert_same _ _ i u). }
    cbn [u_balance with_balance] in Hsucc, Husers, Hledger.
    destruct (serial_spends (length trace) (sr_amount spend_data) b1) as [k b'].
    cbn [fst snd] in *. split; [by rewrite Hsucc|]. split.
    + rewrite Husers. subst s1. cbn. by rewrite list_insert_insert_eq.
    + rewrite Hledger. subst s1. cbn. rewrite length_app. cbn. lia.
Qed.

(** C9 (as stated, refuted).  Served one after the other, two spends of
    0.005 against a balance of exactly 2 x 0.005 = 0.01 both succeed and
    leave 0.01, not 0; and of two spends of 0.125 against a balance of
    exactly 2 x 0.125 = 0.25 the first leaves 0.12 and the second is
    refused. *)
Lemma serial_spends_counterexample :
  let half_cent := [ (example_env, spend "alice" (literal 5 3));
                     (example_env, spend "alice" (literal 5 3)) ] in
  let eighth := [ (example_env, spend "alice" (literal 125 3));
                  (example_env, spend "alice" (literal 125 3)) ] in
  (u_balance <$> users_db cent_state = [literal 1 2] /\
   add (literal 5 3) (literal 5 3) = literal 1 2 /\
   successes (answers half_cent cent_state) = 2%nat /\
   u_balance <$> users_db (run half_cent cent_state) = [literal 1 2] /\
   balance_is_zero (literal 1 2) = false) /\
  (u_balance <$> users_db quarter_state = [literal 25 2] /\
   add (literal 125 3) (literal 125 3) = literal 25 2 /\
   answers eighth quarter_state =
     [Return (BalanceResponse 1 "alice" (literal 12 2)); Raise InsufficientFunds] /\
   u_balance <$> users_db (run eighth quarter_state) = [literal 12 2]).
Proof. repeat split. Qed.

(** C9 (amended).  The code has no lock; what holds is the behaviour of
    requests served one after the other.  For a stored user with balance
    [b] (in a store whose user ids are distinct) and N spend requests of the
    same amount B > 0 made with that user's token, each funds check reads
    the balance the previous request stored: the number of successes and the
    final balance are those of checking, subtracting and rounding N times in
    a row, and every success appends one ledger entry.  Hence the N requests
    give exactly N successes and a final balance of 0 if and only if the
    balances [b], [round(b - B, 2)], [round(round(b - B, 2) - B, 2)], ... are
    not below B for the first N steps and the N-th one is 0. *)
Theorem serial_spends_spec trace token username spend_data s i u :
  NoDup (u_id <$> users_db s) ->
  list_find (fun v => u_username v = username) (users_db s) = Some (i, u) ->
  ltb zero (sr_amount spend_data) = true ->
  Forall (fun step => step.2 = POST_wallet_spend (Some token) spend_data /\
                      jwt_decode step.1 token = Some (Some username)) trace ->
  let N := length trace in
  let B := sr_amount spend_data in
  let outcome := serial_spends N B (u_balance u) in
  successes (answers trace s) = outcome.1 /\
  users_db (run trace s) = <[i := with_balance u outcome.2]> (users_db s) /\
  length (transactions_db (run trace s)) =
    (length (transactions_db s) + outcome.1)%nat /\
  ((successes (answers trace s) = N /\
    exists final, users_db (run trace s) !! i = Some final /\
                  balance_is_zero (u_balance final) = true) <->
   ((forall k, (k < N)%nat -> ltb (chain k B (u_balance u)) B = false) /\
    balance_is_zero (chain N B (u_balance u)) = true)).
Proof.
  intros Hnd Hf Hpos Htrace N B outcome.
  destruct (run_serial_spends trace token username spend_data s i u Hnd Hf Hpos Htrace)
    as (Hsucc & Husers & Hledger).
  fold N B outcome in Hsucc, Husers, Hledger.
  split; [done|]. split; [done|]. split; [done|].
  pose proof Hf as (Hi & _)%list_find_Some.
  assert (Hfinal : users_db (run trace s) !! i = Some (with_balance u outcome.2)).
  { rewrite Husers. apply list_lookup_insert_eq. by eapply lookup_lt_Some. }
  rewrite Hsucc. split.
  - intros (HN & final & Hlook & Hzero).
    rewrite Hfinal in Hlook. injection Hlook as <-. cbn in Hzero.
    split; [by apply serial_spends_all_accepted|].
    by rewrite <- (serial_spends_chain N B (u_balance u) HN).
  - intros (Hall & Hzero). apply serial_spends_all_accepted in Hall.
    split; [done|]. exists (with_balance u outcome.2). split; [done|]. cbn.
    unfold outcome. by rewrite (serial_spends_chain N B (u_balance u) Hall).
Qed.

Lemma serial_spends_spec_witness :
  let quarter := {| sr_amount := literal 25 0; sr_description := "General Spend" |} in
  let four_quarters := replicate 4 (example_env, POST_wallet_spend (Some "alice") quarter) in
  NoDup (u_id <$> users_db alice_state) /\
  list_find (fun v => u_username v = "alice") (users_db alice_state) = Some (0%nat, alice) /\
  ltb zero (literal 25 0) = true /\
  successes (answers four_quarters alice_state) = 4%nat /\
  u_balance <$> users_db (run four_quarters alice_state) = [S754_zero false].
Proof.
  intros quarter four_quarters.
  assert (Hnd : NoDup (u_id <$> users_db alice_state)) by apply NoDup_singleton.
  assert (Htrace : Forall (fun step => step.2 = POST_wallet_spend (Some "alice") quarter /\
                                       jwt_decode step.1 "alice" = Some (Some "alice"))
                     four_quarters).
  { repeat constructor. }
  split; [exact Hnd|]. split; [reflexivity|]. split; [reflexivity|].
  destruct (serial_spends_spec four_quarters "alice" "alice" quarter alice_state
              0%nat alice Hnd eq_refl eq_refl Htrace) as (Hsucc & Husers & _).
  split; [exact Hsucc|]. rewrite Husers. reflexivity.
Defined.

(** C10.  For a stored user and an operation string that is neither
    'SUBTRACT' nor 'ADD', [update_user_balance] raises nothing and neither
    adds nor subtracts: it returns the stored balance rounded to 2 decimals,
    and the state afterwards differs from the state before at most in that
    user's balance, which is now the rounded one. *)
Theorem update_user_balance_other_operation env s i u amount operation :
  NoDup (u_id <$> users_db s) -> users_db s !! i = Some u ->
  operation <> "SUBTRACT" -> operation <> "ADD" ->
  update_user_balance (u_id u) amount operation env s =
    (Return (round (u_balance u) 2),
     {| users_db := <[i := with_balance u (round (u_balance u) 2)]> (users_db s);
        items_db := items_db s;
        transactions_db := transactions_db s |}).
Proof.
  intros Hnd Hi Hsub Hadd. rewrite update_user_balance_eq.
  rewrite (list_find_by_id _ i u Hnd Hi).
  apply String.eqb_neq in Hsub, Hadd. by rewrite Hsub, Hadd.
Qed.

Lemma update_user_balance_other_operation_witness :
  NoDup (u_id <$> users_db alice_state) /\
  users_db alice_state !! 0%nat = Some alice /\
  "MULTIPLY" <> "SUBTRACT" /\ "MULTIPLY" <> "ADD" /\
  update_user_balance 1 (literal 30 0) "MULTIPLY" example_env alice_state =
    (Return (literal 100 0), alice_state).
Proof.
  assert (Hnd : NoDup (u_id <$> users_db alice_state)) by apply NoDup_singleton.
  split; [exact Hnd|]. split; [reflexivity|].
  split; [discriminate|]. split; [discriminate|].
  exact (update_user_balance_other_operation example_env alice_state 0%nat alice
           (literal 30 0) "MULTIPLY" Hnd eq_refl
           ltac:(discriminate) ltac:(discriminate)).
Defined.

(** * Further properties of the service *)

(** ** One request, in full *)

Lemma update_user_balance_subtract_step user_id amount env s :
  match update_user_balance user_id amount "SUBTRACT" env s with
  | (Raise e, s') => s' = s /\ (e = UserNotFound \/ e = InsufficientFunds)
  | (Return b, s') =>
      exists i u,
        users_db s !! i = Some u /\ u_id u = user_id /\
        ltb (u_balance u) amount = false /\
        b = round (sub (u_balance u) amount) 2 /\
        s' = with_users_db (<[i := with_balance u b]> (users_db s)) s
  end.
Proof.
  rewrite update_user_balance_eq.
  destruct (list_find _ (users_db s)) as [[i u]|] eqn:Hf; [|by split; [|left]].
  apply list_find_Some in Hf as (Hi & Hid & _). cbn.
  destruct (ltb (u_balance u) amount) eqn:Hlt; [by split; [|right]|].
  by exists i, u.
Qed.

Lemma create_user_record_step user env s :
  match create_user_record user env s with
  | (Raise e, s') => s' = s /\ (e = DuplicateUsername \/ e = OtherException)
  | (Return r, s') =>
      exists t, r.1 = length (users_db s) /\ u_username r.2 = uc_username user /\
                registered_as r.2 t s s'
  end.
Proof.
  rewrite create_user_record_eq.
  destruct (list_find _ (users_db s)) as [r|] eqn:Hf; [by split; [|left]|].
  destruct (pwd_context_hash env (uc_password user)); [|by split; [|right]].
  cbv zeta. apply list_find_None in Hf. rewrite Forall_forall in Hf.
  eexists. unfold registered_as. by repeat split.
Qed.

Lemma spend_money_step spend_data current_user env s :
  match spend_money spend_data current_user env s with
  | (Raise e, s') => s' = s /\ (e = UserNotFound \/ e = InsufficientFunds)
  | (Return r, s') =>
      exists i u t,
        debited_as i u t s s' /\ u_id u = u_id current_user.2 /\
        t_amount t = sr_amount spend_data /\ t_type t = "SPEND" /\
        r = BalanceResponse (u_id current_user.2) (u_username current_user.2)
              (round (sub (u_balance u) (sr_amount spend_data)) 2)
  end.
Proof.
  rewrite spend_money_eq.
  pose proof (update_user_balance_subtract_step
                (u_id current_user.2) (sr_amount spend_data) env s) as Hu.
  destruct (update_user_balance _ _ _ env s) as [[b|e] s0]; [|done].
  destruct Hu as (i & u & Hi & Hid & Hlt & -> & ->). cbv beta iota zeta.
  match goal with |- context [(_ ++ [?t])%list] => exists i, u, t end.
  unfold debited_as. repeat split; try done. by left.
Qed.

Lemma buy_item_step item_id current_user env s :
  match buy_item item_id current_user env s with
  | (Raise e, s') =>
      s' = s /\ (e = ItemNotFound item_id \/ e = UserNotFound \/ e = InsufficientFunds)
  | (Return r, s') =>
      exists i u t item,
        debited_as i u t s s' /\ u_id u = u_id current_user.2 /\
        item ∈ items_db s /\ i_id item = item_id /\
        t_amount t = i_price item /\ t_type t = "BUY" /\
        r = BalanceResponse (u_id current_user.2) (u_username current_user.2)
              (round (sub (u_balance u) (i_price item)) 2)
  end.
Proof.
  rewrite buy_item_eq.
  destruct (list_find _ (items_db s)) as [[j item]|] eqn:Hf; [|by split; [|left]].
  apply list_find_Some in Hf as (Hj & Hid & _).
  apply list_elem_of_lookup_2 in Hj.
  pose proof (update_user_balance_subtract_step
                (u_id current_user.2) (i_price item) env s) as Hu.
  destruct (update_user_balance _ _ _ env s) as [[b|e] s0]; [|split; tauto].
  destruct Hu as (i & u & Hi & Hidu & Hlt & -> & ->). cbv beta iota zeta.
  match goal with |- context [(_ ++ [?t])%list] => exists i, u, t, item end.
  unfold debited_as. repeat split; try done.
  right. split; [done|]. exists item. by rewrite Hid.
Qed.

(** What the dependency of the authenticated endpoints hands over is a user
    stored in the state, found under the name the token decodes to. *)
Lemma Depends_get_current_user_Return authorization env s r s' :
  Depends_get_current_user authorization env s = (Return r, s') ->
  s' = s /\
  exists token,
    authorization = Some token /\
    jwt_decode env token = Some (Some (u_username r.2)) /\
    list_find (fun v => u_username v = u_username r.2) (users_db s) = Some r /\
    users_db s !! r.1 = Some r.2.
Proof.
  destruct authorization as [token|]; [|done].
  change (Depends_get_current_user (Some token) env s)
    with (get_current_user token env s).
  rewrite get_current_user_eq.
  destruct (jwt_decode env token) as [[username|]|] eqn:Hd; [|done..].
  destruct (list_find _ (users_db s)) as [[i u]|] eqn:Hf; [|done].
  intros [= <- <-]. split; [done|]. exists token.
  pose proof Hf as (Hi & Hname & _)%list_find_Some. cbn.
  by rewrite Hname.
Qed.

Lemma handle_step request env s :
  let s' := (handle request env s).2 in
  s' = s \/
  (exists u t, registered_as u t s s') \/
  (exists i u t, debited_as i u t s s').
Proof.
  cbv zeta.
  destruct request
    as [user|username password|authorization|authorization spend_data|
        |authorization item_id| |];
    unfold handle, bind.
  - unfold validate. destruct (6 <=? _); cbn; [|by left].
    rewrite register_user_eq.
    pose proof (create_user_record_step user env s) as Hc.
    destruct (create_user_record user env s) as [[r|e0] s0].
    + destruct Hc as (t & _ & _ & Hr). right. left. by exists r.2, t.
    + left. destruct Hc as [-> _]. by destruct e0.
  - left. unfold validate. destruct (_ && _); cbn; [|done].
    unfold login_for_access_token, bind, get_user, gets, ask. cbn.
    repeat case_match; done.
  - left. by resolve_current_user authorization env s r.
  - resolve_current_user authorization env s r; [|by left].
    unfold validate_amount. destruct (ltb zero _) eqn:Hpos; cbn;
      [|left; by destruct (sr_amount spend_data)].
    pose proof (spend_money_step spend_data r env s) as Hs.
    destruct (spend_money spend_data r env s) as [[resp|e0] s0]; cbn.
    + destruct Hs as (i & u & t & Hd & _). right. right. by exists i, u, t.
    + left. tauto.
  - by left.
  - resolve_current_user authorization env s r; [|by left].
    pose proof (buy_item_step item_id r env s) as Hb.
    destruct (buy_item item_id r env s) as [[resp|e0] s0]; cbn.
    + destruct Hb as (i & u & t & item & Hd & _). right. right. by exists i, u, t.
    + left. tauto.
  - by left.
  - by left.
Qed.

(** ** Invariants along request sequences *)

Lemma run_preserves (P : State -> Prop) trace s :
  (forall env request s, P s -> P (handle request env s).2) ->
  P s -> P (run trace s).
Proof.
  intros Hstep. apply (run_invariant P (fun _ => true)).
  - intros env request s0 _. apply Hstep.
  - by induction trace.
Qed.

Lemma fmap_insert_balance {B} (f : User -> B) (l : list User) i u b :
  l !! i = Some u -> f (with_balance u b) = f u ->
  f <$> <[i := with_balance u b]> l = f <$> l.
Proof.
  intros Hi Hf. rewrite list_fmap_insert, Hf. apply list_insert_id.
  by rewrite list_lookup_fmap, Hi.
Qed.

(** The catalogue is immutable: no request, and hence no sequence of
    requests from any state, changes [items_db]. *)
Theorem catalogue_never_changes trace s :
  items_db (run trace s) = items_db s.
Proof.
  apply (run_preserves (fun s' => items_db s' = items_db s)); [|done].
  intros env request s0 Hs0. rewrite <- Hs0.
  destruct (handle_step request env s0)
    as [->|[(u & t & -> & _)|(i & u & t & _ & _ & -> & _)]]; done.
Qed.

(** Users are never removed and never renamed: whatever the requests, the
    stored users keep their positions, ids, usernames and password hashes;
    new users are only added at the end. *)
Theorem users_only_appended trace s :
  (identity <$> users_db s) `prefix_of` (identity <$> users_db (run trace s)).
Proof.
  apply (run_preserves
           (fun s' => (identity <$> users_db s) `prefix_of` (identity <$> users_db s')));
    [|done].
  intros env request s0 Hs0. etrans; [exact Hs0|].
  destruct (handle_step request env s0)
    as [->|[(u & t & -> & _)|(i & u & t & Hi & _ & -> & _)]]; cbn.
  - done.
  - rewrite fmap_app. by apply prefix_app_r.
  - by rewrite fmap_insert_balance.
Qed.

(** One request rewrites at most one stored user, and of that user only the
    balance; every other stored user is left as it is. *)
Theorem request_touches_one_balance request env s :
  exists i,
    forall j v, users_db s !! j = Some v ->
      (j <> i -> users_db (handle request env s).2 !! j = Some v) /\
      (exists b, users_db (handle request env s).2 !! j = Some (with_balance v b)).
Proof.
  destruct (handle_step request env s)
    as [->|[(u & t & -> & _)|(i & u & t & Hi & _ & -> & _)]]; cbn.
  - exists 0%nat. intros j [] Hj. split; [done|]. by eexists.
  - exists 0%nat. intros j [] Hj.
    rewrite lookup_app_l by (by eapply lookup_lt_Some).
    split; [done|]. by eexists.
  - exists i. intros j v Hj. split.
    + intros Hne. by rewrite list_lookup_insert_ne.
    + destruct (decide (i = j)) as [->|Hne].
      * rewrite list_lookup_insert_eq by (by eapply lookup_lt_Some).
        eexists. replace v with u by congruence. done.
      * rewrite list_lookup_insert_ne by done. destruct v. by eexists.
Qed.

Lemma request_touches_one_balance_witness :
  users_db alice_state !! 0%nat = Some alice /\
  exists b,
    users_db (handle (spend "alice" (literal 30 0)) example_env alice_state).2 !! 0%nat =
      Some (with_balance alice b).
Proof.
  split; [reflexivity|].
  destruct (request_touches_one_balance (spend "alice" (literal 30 0))
              example_env alice_state) as [i Hi].
  exact (proj2 (Hi 0%nat alice eq_refl)).
Defined.

(** Usernames stay unique: after any sequence of requests from the freshly
    seeded store no two stored users share a username. *)
Theorem usernames_unique trace :
  NoDup (u_username <$> users_db (run trace initial_state)).
Proof.
  apply (run_preserves (fun s => NoDup (u_username <$> users_db s)));
    [|constructor].
  intros env request s Hs.
  destruct (handle_step request env s)
    as [->|[(u & t & -> & Hfresh & _)|(i & u & t & Hi & _ & -> & _)]]; cbn.
  - done.
  - rewrite fmap_app. apply NoDup_app. split; [done|]. split; [|apply NoDup_singleton].
    intros name (v & -> & Hv)%list_elem_of_fmap Hin.
    apply list_elem_of_singleton in Hin. by apply (Hfresh v).
  - by rewrite fmap_insert_balance.
Qed.

Lemma get_next_id_seqZ {A} (id : A -> Z) (db : list A) :
  id <$> db = seqZ 1 (Z.of_nat (length db)) ->
  get_next_id id db = Z.of_nat (length db) + 1.
Proof.
  intros Hids. destruct db as [|x0 db0] eqn:Hdb; [done|]. rewrite <- Hdb in *.
  assert (Hne : db <> []) by (by rewrite Hdb).
  destruct (get_next_id_max id db Hne) as (x & Hx & -> & Hmax).
  assert (Hin : forall k, k ∈ id <$> db <-> 1 <= k < 1 + Z.of_nat (length db)).
  { intros k. rewrite Hids. apply elem_of_seqZ. }
  assert (id x <= Z.of_nat (length db)).
  { apply list_elem_of_fmap_2 with (f := id) in Hx. apply Hin in Hx. lia. }
  assert (Z.of_nat (length db) <= id x).
  { assert (Hlast : Z.of_nat (length db) ∈ id <$> db).
    { apply Hin. rewrite Hdb. cbn [length]. lia. }
    apply list_elem_of_fmap in Hlast as (y & -> & Hy). by apply Hmax. }
  lia.
Qed.

Lemma ids_seqZ_snoc {A} (id : A -> Z) (db : list A) x :
  id <$> db = seqZ 1 (Z.of_nat (length db)) -> id x = get_next_id id db ->
  id <$> (db ++ [x])%list = seqZ 1 (Z.of_nat (length (db ++ [x])%list)).
Proof.
  intros Hids Hx. rewrite length_app, Nat.add_1_r, seqZ_S, fmap_app, <- Hids. cbn.
  rewrite Hx, (get_next_id_seqZ id db Hids). do 2 f_equal. lia.
Qed.

(** Identifiers are consecutive: after any sequence of requests from the
    freshly seeded store, the k-th stored user has id k and the k-th ledger
    entry has id k (counting from 1). *)
Theorem ids_are_consecutive trace :
  let s := run trace initial_state in
  u_id <$> users_db s = seqZ 1 (Z.of_nat (length (users_db s))) /\
  t_id <$> transactions_db s = seqZ 1 (Z.of_nat (length (transactions_db s))).
Proof.
  cbv zeta.
  apply (run_preserves
           (fun s => u_id <$> users_db s = seqZ 1 (Z.of_nat (length (users_db s))) /\
                     t_id <$> transactions_db s =
                       seqZ 1 (Z.of_nat (length (transactions_db s)))));
    [|done].
  intros env request s [Hu Ht].
  destruct (handle_step request env s)
    as [->|[(u & t & -> & _ & Hid & _ & Htid & _)
           |(i & u & t & Hi & _ & -> & Htid & _)]]; cbn.
  - done.
  - split; by apply ids_seqZ_snoc.
  - split; [|by apply ids_seqZ_snoc].
    by rewrite fmap_insert_balance, length_insert.
Qed.

(** Every ledger entry belongs to a stored user: after any sequence of
    requests from the freshly seeded store, the [user_id] of each entry is
    the id of some user in [users_db]. *)
Theorem ledger_refers_to_stored_users trace :
  let s := run trace initial_state in
  Forall (fun t => t_user_id t ∈ u_id <$> users_db s) (transactions_db s).
Proof.
  cbv zeta.
  apply (run_preserves
           (fun s => Forall (fun t => t_user_id t ∈ u_id <$> users_db s)
                       (transactions_db s)));
    [|constructor].
  intros env request s Hs.
  destruct (handle_step request env s)
    as [->|[(u & t & -> & _ & _ & _ & _ & Huid & _)
           |(i & u & t & Hi & _ & -> & _ & Huid & _)]]; cbn.
  - done.
  - apply Forall_app. split.
    + eapply Forall_impl; [exact Hs|]. cbn. intros t0 Ht0.
      rewrite fmap_app. apply elem_of_app. by left.
    + repeat constructor. rewrite Huid, fmap_app. apply elem_of_app. right.
      apply list_elem_of_singleton. done.
  - rewrite fmap_insert_balance by done.
    apply Forall_app. split; [done|]. repeat constructor.
    rewrite Huid. apply list_elem_of_fmap_2. by eapply list_elem_of_lookup_2.
Qed.

(** Each stored user has exactly one REGISTER entry, in registration order,
    and every REGISTER entry carries the initial balance: after any sequence
    of requests from the freshly seeded store, the user ids of the REGISTER
    entries, read in ledger order, are the ids of [users_db] in list order. *)
Theorem one_register_entry_per_user trace :
  let s := run trace initial_state in
  let registrations := filter (fun t => t_type t = "REGISTER") (transactions_db s) in
  t_user_id <$> registrations = u_id <$> users_db s /\
  Forall (fun t => t_amount t = INITIAL_BALANCE /\ t_item_id t = None) registrations.
Proof.
  cbv zeta.
  apply (run_preserves
           (fun s =>
              t_user_id <$> filter (fun t => t_type t = "REGISTER") (transactions_db s) =
                u_id <$> users_db s /\
              Forall (fun t => t_amount t = INITIAL_BALANCE /\ t_item_id t = None)
                (filter (fun t => t_type t = "REGISTER") (transactions_db s))));
    [|by split; [|constructor]].
  intros env request s [Hids Hall].
  destruct (handle_step request env s)
    as [->|[(u & t & -> & _ & _ & _ & _ & Huid & Hty & Hamt & Hitem)
           |(i & u & t & Hi & _ & -> & _ & _ & Hty)]]; cbn.
  - done.
  - rewrite filter_app, !fmap_app, (filter_cons_True _ t) by done. cbn.
    split; [by rewrite Hids, Huid|].
    apply Forall_app. split; [done|]. by repeat constructor.
  - rewrite filter_app, (filter_cons_False _ t), app_nil_r.
    + by rewrite fmap_insert_balance.
    + by destruct Hty as [[-> _]|[-> _]].
Qed.

(** Ledger entries that name an item are purchases of a catalogue item at
    its price, and the other entries are registrations or spends: this holds
    after any sequence of requests from the freshly seeded store. *)
Theorem ledger_items_are_catalogue_purchases trace :
  let s := run trace initial_state in
  Forall (fun t =>
            match t_item_id t with
            | Some item_id =>
                t_type t = "BUY" /\
                exists item, item ∈ seed_data /\ i_id item = item_id /\
                             t_amount t = i_price item
            | None => t_type t = "REGISTER" \/ t_type t = "SPEND"
            end)
    (transactions_db s).
Proof.
  cbv zeta.
  set (ok := fun t =>
               match t_item_id t with
               | Some item_id =>
                   t_type t = "BUY" /\
                   exists item, item ∈ seed_data /\ i_id item = item_id /\
                                t_amount t = i_price item
               | None => t_type t = "REGISTER" \/ t_type t = "SPEND"
               end).
  enough (items_db (run trace initial_state) = seed_data /\
          Forall ok (transactions_db (run trace initial_state))) by tauto.
  apply (run_preserves
           (fun s => items_db s = seed_data /\ Forall ok (transactions_db s)));
    [|by split; [|constructor]].
  intros env request s [Hitems Hall].
  destruct (handle_step request env s)
    as [->|[(u & t & -> & _ & _ & _ & _ & _ & Hty & _ & Hitem)
           |(i & u & t & Hi & _ & -> & _ & _ & Hty)]]; cbn.
  - done.
  - split; [done|]. apply Forall_app. split; [done|]. repeat constructor.
    unfold ok. rewrite Hitem. by left.
  - split; [done|]. apply Forall_app. split; [done|]. repeat constructor.
    unfold ok. destruct Hty as [[Hty ->]|[Hty (item & Hin & -> & Hamt)]].
    + by right.
    + split; [done|]. exists item. by rewrite <- Hitems.
Qed.

Lemma replay_snoc user_id ledger t :
  replay user_id (ledger ++ [t]) = replay_entry user_id (replay user_id ledger) t.
Proof. unfold replay. by rewrite foldl_app. Qed.

Lemma replay_entry_other user_id b t :
  t_user_id t <> user_id -> replay_entry user_id b t = b.
Proof. intros Hne. unfold replay_entry. by rewrite bool_decide_eq_false_2. Qed.

Lemma ids_distinct (l : list User) i j u v :
  NoDup (u_id <$> l) -> l !! i = Some u -> l !! j = Some v -> i <> j ->
  u_id u <> u_id v.
Proof.
  intros Hnd Hi Hj Hne Heq. apply Hne.
  eapply NoDup_lookup; [exact Hnd| |]; rewrite list_lookup_fmap.
  - by rewrite Hi.
  - rewrite Hj. cbn. by rewrite Heq.
Qed.

(** The ledger accounts for every balance: after any sequence of requests
    from the freshly seeded store, replaying the ledger entries of a stored
    user in order (REGISTER sets the balance, SPEND and BUY subtract and
    round) yields exactly that user's stored balance. *)
Theorem ledger_replays_to_balances trace :
  let s := run trace initial_state in
  forall i u, users_db s !! i = Some u ->
    replay (u_id u) (transactions_db s) = Some (u_balance u).
Proof.
  cbv zeta.
  enough (ids_increasing (run trace initial_state) /\
          forall i u, users_db (run trace initial_state) !! i = Some u ->
            replay (u_id u) (transactions_db (run trace initial_state)) =
              Some (u_balance u)) by tauto.
  apply (run_preserves
           (fun s => ids_increasing s /\
                     forall i u, users_db s !! i = Some u ->
                       replay (u_id u) (transactions_db s) = Some (u_balance u)));
    [|by split; [split; constructor|]].
  intros env request s [Hids Hrep].
  split; [by apply handle_ids_increasing|].
  destruct Hids as [Hnd%StronglySorted_lt_NoDup _].
  destruct (handle_step request env s)
    as [->|[(u & t & -> & _ & Hid & Hbal & _ & Huid & Hty & Hamt & _)
           |(i & u & t & Hi & _ & -> & _ & Huid & Hty)]];
    cbn [users_db transactions_db].
  - done.
  - intros j v Hj. rewrite replay_snoc.
    apply lookup_app_Some in Hj as [Hj|[_ Hj]].
    + rewrite replay_entry_other; [by eapply Hrep|].
      rewrite Huid, Hid.
      pose proof (get_next_id_fresh u_id (users_db s) v
                    ltac:(by eapply list_elem_of_lookup_2)). lia.
    + apply list_lookup_singleton_Some in Hj as [_ <-].
      unfold replay_entry. rewrite bool_decide_eq_true_2 by done.
      by rewrite Hty, Hamt, Hbal.
  - intros j v Hj. rewrite replay_snoc.
    destruct (decide (i = j)) as [<-|Hne].
    + rewrite list_lookup_insert_eq in Hj by (by eapply lookup_lt_Some).
      injection Hj as <-. cbn.
      rewrite (Hrep i u Hi). unfold replay_entry.
      rewrite bool_decide_eq_true_2 by done.
      by destruct Hty as [[-> _]|[-> _]].
    + rewrite list_lookup_insert_ne in Hj by done.
      rewrite replay_entry_other; [by eapply Hrep|].
      rewrite Huid. by eapply ids_distinct.
Qed.

Lemma ledger_replays_to_balances_witness :
  users_db (run scenario initial_state) !! 0%nat =
    Some (with_balance alice (literal 445 1)) /\
  replay 1 (transactions_db (run scenario initial_state)) = Some (literal 445 1).
Proof.
  split; [reflexivity|].
  exact (ledger_replays_to_balances scenario 0%nat
           (with_balance alice (literal 445 1)) eq_refl).
Defined.

(** ** Looking users up *)

Lemma list_find_is_Some {A} (P : A -> Prop) `{!forall x, Decision (P x)}
    (l : list A) x :
  x ∈ l -> P x -> is_Some (list_find P l).
Proof.
  intros Hin HP. destruct (list_find P l) eqn:Hf; [done|].
  apply list_find_None in Hf. rewrite Forall_forall in Hf. by destruct (Hf x).
Qed.


(** [update_user_balance] answers 404 "User not found" exactly when no
    stored user has the requested id, whatever the amount and the operation,
    and then the state is unchanged. *)
Theorem update_user_balance_user_not_found user_id amount operation env s :
  update_user_balance user_id amount operation env s = (Raise UserNotFound, s) <->
  (forall v, v ∈ users_db s -> u_id v <> user_id).
Proof.
  rewrite update_user_balance_eq. split.
  - intros Hr v Hin Hid.
    destruct (list_find_is_Some (fun v => u_id v = user_id) _ v Hin Hid) as [[i u] Hf].
    rewrite Hf in Hr. cbv zeta in Hr. by repeat case_match.
  - intros Hnone.
    destruct (list_find _ (users_db s)) as [[i u]|] eqn:Hf; [|done].
    apply list_find_Some in Hf as (Hi & Hid & _).
    destruct (Hnone u); [by eapply list_elem_of_lookup_2|done].
Qed.

Lemma update_user_balance_user_not_found_witness :
  (forall v, v ∈ users_db alice_state -> u_id v <> 7) /\
  update_user_balance 7 (literal 1 0) "ADD" example_env alice_state =
    (Raise UserNotFound, alice_state).
Proof.
  assert (Hnone : forall v, v ∈ users_db alice_state -> u_id v <> 7).
  { intros v Hin. apply list_elem_of_singleton in Hin as ->. discriminate. }
  split; [exact Hnone|].
  exact (proj2 (update_user_balance_user_not_found 7 (literal 1 0) "ADD"
                  example_env alice_state) Hnone).
Defined.

(** The 'ADD' operation has no guard: for a stored user (in a store whose
    user ids are distinct) and any amount it never raises, returns
    [round(balance + amount, 2)] and stores it in that user, leaving
    everything else as it is. *)
Theorem update_user_balance_add env s i u amount :
  NoDup (u_id <$> users_db s) -> users_db s !! i = Some u ->
  update_user_balance (u_id u) amount "ADD" env s =
    (Return (round (add (u_balance u) amount) 2),
     {| users_db :=
          <[i := with_balance u (round (add (u_balance u) amount) 2)]> (users_db s);
        items_db := items_db s;
        transactions_db := transactions_db s |}).
Proof.
  intros Hnd Hi. rewrite update_user_balance_eq.
  by rewrite (list_find_by_id _ i u Hnd Hi).
Qed.

Lemma update_user_balance_add_witness :
  NoDup (u_id <$> users_db alice_state) /\
  users_db alice_state !! 0%nat = Some alice /\
  (update_user_balance 1 (literal 2550 2) "ADD" example_env alice_state).1 =
    Return (literal 1255 1).
Proof.
  assert (Hnd : NoDup (u_id <$> users_db alice_state)) by apply NoDup_singleton.
  split; [exact Hnd|]. split; [reflexivity|].
  exact (f_equal fst (update_user_balance_add example_env alice_state 0%nat alice
                        (literal 2550 2) Hnd eq_refl)).
Defined.

(** A user just created is found again: after a successful
    [create_user_record], both [get_user] with the requested username and
    [get_user_by_id] with the new id return the new user, in any state the
    creation started from. *)
Theorem created_user_is_found user env env' s r s' :
  create_user_record user env s = (Return r, s') ->
  get_user (uc_username user) env' s' = (Return (Some r), s') /\
  get_user_by_id (u_id r.2) env' s' = (Return (Some r), s').
Proof.
  intros Hc. pose proof (create_user_record_step user env s) as Hs.
  rewrite Hc in Hs. destruct Hs as (t & Hpos & Hname & -> & Hfresh & Hid & _).
  destruct r as [i u]. cbn in *. subst i.
  unfold get_user, get_user_by_id, gets. cbn. split; do 2 f_equal.
  - apply list_find_Some. split; [by apply list_lookup_middle|]. split; [done|].
    intros j v Hj Hlt. rewrite lookup_app_l in Hj by done.
    rewrite <- Hname. apply Hfresh. by eapply list_elem_of_lookup_2.
  - apply list_find_Some. split; [by apply list_lookup_middle|]. split; [done|].
    intros j v Hj Hlt. rewrite lookup_app_l in Hj by done.
    pose proof (get_next_id_fresh u_id (users_db s) v
                  ltac:(by eapply list_elem_of_lookup_2)). lia.
Qed.

Lemma created_user_is_found_witness :
  create_user_record {| uc_username := "alice"; uc_password := "secret1" |}
    example_env initial_state = (Return (0%nat, alice), alice_state) /\
  get_user "alice" example_env alice_state = (Return (Some (0%nat, alice)), alice_state) /\
  get_user_by_id 1 example_env alice_state = (Return (Some (0%nat, alice)), alice_state).
Proof.
  split; [reflexivity|].
  exact (created_user_is_found {| uc_username := "alice"; uc_password := "secret1" |}
           example_env example_env initial_state (0%nat, alice) alice_state eq_refl).
Defined.

(** ** Logging in *)

Lemma login_for_access_token_eq username password env s :
  login_for_access_token username password env s =
    match list_find (fun v => u_username v = username) (users_db s) with
    | Some (_, u) =>
        if pwd_context_verify env password (u_hashed_password u) then
          (Return (Token (jwt_encode env (u_username u) (datetime_utcnow env + 30 * 60))
                     "bearer"), s)
        else (Raise IncorrectLogin, s)
    | None => (Raise IncorrectLogin, s)
    end.
Proof.
  unfold login_for_access_token, bind, get_user, gets, ask.
  destruct (list_find _ (users_db s)) as [[i u]|]; [|done]. cbn.
  by destruct (pwd_context_verify env password (u_hashed_password u)).
Qed.

Lemma handle_login_eq username password env s :
  handle (POST_auth_login username password) env s =
    if negb (String.eqb username "") && negb (String.eqb password "")
    then login_for_access_token username password env s
    else (Raise RequestValidationError, s).
Proof. unfold handle, bind, validate. by destruct (_ && _). Qed.



(** Register, log in, read the balance: when the password has at least 6
    characters, the username is not empty and free, and the libraries keep
    their contracts (the hasher returns a hash, which verifies against the
    password; the issued token decodes to its subject), registration
    succeeds, the login that follows returns a bearer token, and the balance
    read with that token is the initial balance of the new user; login and
    balance leave the state alone. *)
Theorem register_login_balance env1 env2 env3 s user hashed_password :
  let username := uc_username user in
  let password := uc_password user in
  let token := jwt_encode env2 username (datetime_utcnow env2 + 30 * 60) in
  (6 <= len password)%nat ->
  username <> "" ->
  (forall v, v ∈ users_db s -> u_username v <> username) ->
  pwd_context_hash env1 password = Some hashed_password ->
  pwd_context_verify env2 password hashed_password = true ->
  jwt_decode env3 token = Some (Some username) ->
  exists s1,
    handle (POST_auth_register user) env1 s = (Return (UserBase username), s1) /\
    handle (POST_auth_login username password) env2 s1 =
      (Return (Token token "bearer"), s1) /\
    handle (GET_wallet_balance (Some token)) env3 s1 =
      (Return (BalanceResponse (get_next_id u_id (users_db s)) username INITIAL_BALANCE),
       s1).
Proof.
  intros username password token Hlen Hname Hfresh Hhash Hverify Hdecode.
  assert (Hnone : list_find (fun v => u_username v = username) (users_db s) = None).
  { apply list_find_None, Forall_forall. exact Hfresh. }
  set (new_user := {| u_id := get_next_id u_id (users_db s); u_username := username;
                      u_hashed_password := hashed_password;
                      u_balance := INITIAL_BALANCE |}).
  assert (Hcreate : exists s1,
            create_user_record user env1 s = (Return (length (users_db s), new_user), s1) /\
            users_db s1 = (users_db s ++ [new_user])%list).
  { rewrite create_user_record_eq. fold username password. rewrite Hnone, Hhash.
    cbv zeta. eexists. split; [reflexivity|done]. }
  destruct Hcreate as (s1 & Hcreate & Hs1).
  assert (Hfind : list_find (fun v => u_username v = username) (users_db s1) =
                    Some (length (users_db s), new_user)).
  { rewrite Hs1. apply list_find_Some.
    split; [by apply list_lookup_middle|]. split; [done|].
    intros j v Hj Hlt. rewrite lookup_app_l in Hj by done.
    apply Hfresh. by eapply list_elem_of_lookup_2. }
  exists s1. split; [|split].
  - unfold handle, bind, validate.
    replace (6 <=? Z.of_nat (len (uc_password user))) with true
      by (symmetry; apply Z.leb_le; fold password; lia).
    cbn. by rewrite register_user_eq, Hcreate.
  - rewrite handle_login_eq.
    replace (negb (username =? "")%string && negb (password =? "")%string) with true.
    + rewrite login_for_access_token_eq, Hfind. cbn. by rewrite Hverify.
    + apply String.eqb_neq in Hname. rewrite Hname.
      destruct password; [cbn in Hlen; lia|done].
  - change (handle (GET_wallet_balance (Some token)) env3 s1)
      with (match get_current_user token env3 s1 with
            | (Return r, s') => get_balance r env3 s'
            | (Raise e, s') => (Raise e, s')
            end).
    by rewrite get_current_user_eq, Hdecode, Hfind.
Qed.

Lemma register_login_balance_witness :
  (6 <= len "secret1")%nat /\
  "alice" <> "" /\
  (forall v, v ∈ users_db initial_state -> u_username v <> "alice") /\
  pwd_context_hash example_env "secret1" = Some "hashed:secret1" /\
  handle (GET_wallet_balance (Some "alice")) example_env alice_state =
    (Return (BalanceResponse 1 "alice" (literal 100 0)), alice_state).
Proof.
  assert (Hlen : (6 <= len "secret1")%nat) by (apply Nat.leb_le; reflexivity).
  assert (Hname : "alice" <> "") by discriminate.
  assert (Hfresh : forall v, v ∈ users_db initial_state -> u_username v <> "alice").
  { intros v Hin. by apply elem_of_nil in Hin. }
  split; [exact Hlen|]. split; [exact Hname|]. split; [exact Hfresh|].
  split; [reflexivity|].
  destruct (register_login_balance example_env example_env example_env initial_state
              {| uc_username := "alice"; uc_password := "secret1" |} "hashed:secret1"
              Hlen Hname Hfresh eq_refl eq_refl eq_refl) as (s1 & Hreg & _ & Hbal).
  injection Hreg as <-. exact Hbal.
Defined.

(** ** The authenticated endpoints *)

Lemma handle_balance_eq token env s :
  handle (GET_wallet_balance (Some token)) env s =
    match get_current_user token env s with
    | (Return r, s') => get_balance r env s'
    | (Raise e, s') => (Raise e, s')
    end.
Proof. reflexivity. Qed.


Lemma handle_buy_eq token item_id env s :
  handle (POST_items_buy (Some token) item_id) env s =
    match get_current_user token env s with
    | (Return r, s') => buy_item item_id r env s'
    | (Raise e, s') => (Raise e, s')
    end.
Proof. reflexivity. Qed.

(** A balance read after a spend shows what the spend answered: for a token
    that decodes to a stored username (in a store whose user ids are
    distinct), a positive amount and sufficient funds, POST /wallet/spend
    answers the user's id, name and new balance, and GET /wallet/balance with
    the same token then answers the same three values. *)
Theorem balance_reads_last_spend env env' s token username i u spend_data :
  NoDup (u_id <$> users_db s) ->
  jwt_decode env token = Some (Some username) ->
  jwt_decode env' token = Some (Some username) ->
  list_find (fun v => u_username v = username) (users_db s) = Some (i, u) ->
  ltb zero (sr_amount spend_data) = true ->
  ltb (u_balance u) (sr_amount spend_data) = false ->
  let answer :=
    BalanceResponse (u_id u) username
      (round (sub (u_balance u) (sr_amount spend_data)) 2) in
  exists s1,
    handle (POST_wallet_spend (Some token) spend_data) env s = (Return answer, s1) /\
    handle (GET_wallet_balance (Some token)) env' s1 = (Return answer, s1).
Proof.
  intros Hnd Hdec Hdec' Hf Hpos Hlt answer.
  pose proof Hf as (Hi & Hname & _)%list_find_Some.
  assert (Hspend : exists t,
            spend_money spend_data (i, u) env s =
              (Return answer,
               {| users_db :=
                    <[i := with_balance u
                             (round (sub (u_balance u) (sr_amount spend_data)) 2)]>
                      (users_db s);
                  items_db := items_db s;
                  transactions_db := transactions_db s ++ [t] |})).
  { rewrite spend_money_eq. cbn [fst snd].
    rewrite (update_user_balance_subtract env s i u _ Hnd Hi), Hlt. cbv zeta.
    unfold answer. rewrite Hname. by eexists. }
  destruct Hspend as (t & Hspend).
  eexists. split.
  - by rewrite handle_spend_eq, get_current_user_eq, Hdec, Hf, Hpos, Hspend.
  - rewrite handle_balance_eq, get_current_user_eq, Hdec'. cbn [users_db].
    rewrite (list_find_insert_same _ _ i u
               (with_balance u (round (sub (u_balance u) (sr_amount spend_data)) 2)) Hf Hname).
    unfold answer. by rewrite <- Hname.
Qed.

Lemma balance_reads_last_spend_witness :
  NoDup (u_id <$> users_db alice_state) /\
  list_find (fun v => u_username v = "alice") (users_db alice_state) = Some (0%nat, alice) /\
  exists s1,
    handle (spend "alice" (literal 30 0)) example_env alice_state =
      (Return (BalanceResponse 1 "alice" (literal 70 0)), s1) /\
    handle (GET_wallet_balance (Some "alice")) example_env s1 =
      (Return (BalanceResponse 1 "alice" (literal 70 0)), s1).
Proof.
  assert (Hnd : NoDup (u_id <$> users_db alice_state)) by apply NoDup_singleton.
  split; [exact Hnd|]. split; [reflexivity|].
  exact (balance_reads_last_spend example_env example_env alice_state "alice" "alice"
           0%nat alice {| sr_amount := literal 30 0; sr_description := "General Spend" |}
           Hnd eq_refl eq_refl eq_refl eq_refl eq_refl).
Defined.

(** The reading endpoints (login, balance, item list, transaction list,
    user list) never change the state, whatever they answer, so asking
    again gives the same answer. *)
Theorem read_only_requests_do_not_mutate request env s :
  read_only request = true ->
  (handle request env s).2 = s /\
  handle request env (handle request env s).2 = handle request env s.
Proof.
  intros Hro.
  assert (Hs : (handle request env s).2 = s); [|by rewrite Hs].
  destruct request as [| username password | authorization | | | | |]; try done.
  - rewrite handle_login_eq, login_for_access_token_eq. by repeat case_match.
  - unfold handle, bind. by resolve_current_user authorization env s r.
Qed.

Lemma read_only_requests_do_not_mutate_witness :
  read_only GET_transactions = true /\
  (handle GET_transactions example_env (run scenario initial_state)).2 =
    run scenario initial_state.
Proof.
  split; [reflexivity|].
  exact (proj1 (read_only_requests_do_not_mutate GET_transactions example_env
                  (run scenario initial_state) eq_refl)).
Defined.

Lemma update_user_balance_stored_user i u amount operation env s :
  users_db s !! i = Some u ->
  (update_user_balance (u_id u) amount operation env s).1 <> Raise UserNotFound.
Proof.
  intros Hi. rewrite update_user_balance_eq.
  destruct (list_find_is_Some (fun v => u_id v = u_id u) (users_db s) u) as [[j v] ->];
    [by eapply list_elem_of_lookup_2|done|].
  cbv zeta. by repeat case_match.
Qed.

(** The 404 "User not found" of [update_user_balance] cannot be reached
    through the endpoints: no request, in any state and environment, is
    answered with it, because the endpoints only debit the user that the
    token lookup has just found in the store. *)
Theorem no_request_answers_user_not_found request env s :
  (handle request env s).1 <> Raise UserNotFound.
Proof.
  destruct request
    as [user|username password|[token|]|[token|] spend_data|
        |[token|] item_id| |]; try done.
  - unfold handle, bind, validate. destruct (6 <=? _); [|by cbn]. cbn.
    rewrite register_user_eq, create_user_record_eq. repeat case_match; simplify_eq; by cbn.
  - rewrite handle_login_eq, login_for_access_token_eq.
    repeat case_match; simplify_eq; by cbn.
  - rewrite handle_balance_eq, get_current_user_eq. repeat case_match; simplify_eq; by cbn.
  - rewrite handle_spend_eq.
    destruct (get_current_user token env s) as [[r|e] s'] eqn:Hg.
    + pose proof (Depends_get_current_user_Return (Some token) env s r s' Hg)
        as (-> & _ & _ & _ & _ & Hr).
      destruct (ltb zero _); [|by destruct (sr_amount spend_data)].
      rewrite spend_money_eq.
      pose proof (update_user_balance_stored_user r.1 r.2 (sr_amount spend_data)
                    "SUBTRACT" env s Hr) as Hu.
      destruct (update_user_balance _ _ _ env s) as [[b|e] s0];
        [cbn; discriminate|cbn in *; congruence].
    + rewrite get_current_user_eq in Hg. repeat case_match; simplify_eq; by cbn.
  - rewrite handle_buy_eq.
    destruct (get_current_user token env s) as [[r|e] s'] eqn:Hg.
    + pose proof (Depends_get_current_user_Return (Some token) env s r s' Hg)
        as (-> & _ & _ & _ & _ & Hr).
      rewrite buy_item_eq.
      destruct (list_find _ (items_db s)) as [[j item]|]; [|by cbn].
      pose proof (update_user_balance_stored_user r.1 r.2 (i_price item)
                    "SUBTRACT" env s Hr) as Hu.
      destruct (update_user_balance _ _ _ env s) as [[b|e] s0];
        [cbn; discriminate|cbn in *; congruence].
    + rewrite get_current_user_eq in Hg. repeat case_match; simplify_eq; by cbn.
Qed.

Lemma run_balances_nonneg_finite trace :
  forallb (fun step => request_floats_valid step.2) trace = true ->
  balances_nonneg_finite (run trace initial_state).
Proof.
  intros Hvalid.
  apply (run_invariant _ (fun step => request_floats_valid step.2)); [|done|].
  - intros env request s. apply handle_balances.
  - split; [constructor|done].
Qed.

Lemma ltb_infinity x : nonneg_finite x = true -> ltb x (S754_infinity false) = true.
Proof. by destruct x as [sx|sx| |[] m e]. Qed.

(** The amounts at the edge of the [gt=0] check of a spend, for a token that
    resolves to a stored user: a finite amount that is not above zero (a
    zero or a negative number) is refused with the 422 validation error; NaN
    and negative infinity are refused too, but the 422 answer cannot be
    rendered for them and the server answers 500; positive infinity passes
    the check and is then refused with 400 "Insufficient funds", since after
    any sequence of requests from the freshly seeded store every balance is
    finite.  None of them changes the state. *)
Theorem spend_amount_edge_cases trace env token username spend_data :
  forallb (fun step => request_floats_valid step.2) trace = true ->
  let s := run trace initial_state in
  let amount := sr_amount spend_data in
  let answer := handle (POST_wallet_spend (Some token) spend_data) env s in
  jwt_decode env token = Some (Some username) ->
  (exists v, v ∈ users_db s /\ u_username v = username) ->
  ((exists sign, amount = S754_zero sign) \/
   (exists m e, amount = S754_finite true m e) ->
   answer = (Raise RequestValidationError, s)) /\
  (amount = S754_nan \/ amount = S754_infinity true ->
   answer = (Raise OtherException, s)) /\
  (amount = S754_infinity false -> answer = (Raise InsufficientFunds, s)).
Proof.
  intros Hvalid s amount answer Hdec (v & Hin & Hname). subst amount answer.
  destruct (list_find_is_Some (fun v => u_username v = username) (users_db s) v Hin Hname)
    as [[i u] Hf].
  rewrite handle_spend_eq, get_current_user_eq, Hdec, Hf. split; [|split].
  - by intros [[sign ->]|(m & e & ->)].
  - by intros [->| ->].
  - intros Hinf. rewrite Hinf. cbn [ltb zero SFltb SFcompare].
    pose proof Hf as (Hi & _ & _)%list_find_Some.
    destruct (run_ids_increasing trace) as [Hnd%StronglySorted_lt_NoDup _].
    destruct (run_balances_nonneg_finite trace Hvalid) as [Hb _].
    rewrite Forall_lookup in Hb. specialize (Hb i u Hi). cbn in Hb.
    rewrite spend_money_eq. cbn [fst snd].
    rewrite (update_user_balance_subtract env s i u _ Hnd Hi), Hinf.
    by rewrite (ltb_infinity _ Hb).
Qed.

Lemma spend_amount_edge_cases_witness :
  forallb (fun step => request_floats_valid step.2) (take 1 scenario) = true /\
  jwt_decode example_env "alice" = Some (Some "alice") /\
  handle (spend "alice" (S754_infinity false)) example_env alice_state =
    (Raise InsufficientFunds, alice_state) /\
  handle (spend "alice" S754_nan) example_env alice_state =
    (Raise OtherException, alice_state) /\
  handle (spend "alice" (S754_zero false)) example_env alice_state =
    (Raise RequestValidationError, alice_state).
Proof.
  assert (Hin : exists v, v ∈ users_db (run (take 1 scenario) initial_state) /\
                          u_username v = "alice").
  { exists alice. split; [apply elem_of_cons; by left|reflexivity]. }
  split; [reflexivity|]. split; [reflexivity|]. split; [|split].
  - exact (proj2 (proj2 (spend_amount_edge_cases (take 1 scenario) example_env
             "alice" "alice"
             {| sr_amount := S754_infinity false; sr_description := "General Spend" |}
             eq_refl eq_refl Hin)) eq_refl).
  - exact (proj1 (proj2 (spend_amount_edge_cases (take 1 scenario) example_env
             "alice" "alice"
             {| sr_amount := S754_nan; sr_description := "General Spend" |}
             eq_refl eq_refl Hin)) (or_introl eq_refl)).
  - exact (proj1 (spend_amount_edge_cases (take 1 scenario) example_env
             "alice" "alice"
             {| sr_amount := S754_zero false; sr_description := "General Spend" |}
             eq_refl eq_refl Hin) (or_introl (ex_intro _ false eq_refl))).
Defined.

(** A request made with the token of one user leaves every other user
    alone: in a store whose user ids are distinct, after a request whose
    bearer token decodes to [username], every stored user with another
    username is still stored, at the same position, with the same balance. *)
Theorem other_users_untouched request env s token username :
  NoDup (u_id <$> users_db s) ->
  authorization_of request = Some token ->
  jwt_decode env token = Some (Some username) ->
  forall j v, users_db s !! j = Some v -> u_username v <> username ->
    users_db (handle request env s).2 !! j = Some v.
Proof.
  intros Hnd Hauth Hdec j v Hj Hother.
  assert (Hdebit : forall i u amount,
            list_find (fun v => u_username v = username) (users_db s) = Some (i, u) ->
            users_db (update_user_balance (u_id u) amount "SUBTRACT" env s).2 !! j = Some v).
  { intros i u amount (Hi & Hname & _)%list_find_Some.
    rewrite (update_user_balance_subtract env s i u amount Hnd Hi).
    destruct (ltb (u_balance u) amount); [done|]. cbn.
    rewrite list_lookup_insert_ne; [done|]. intros ->. congruence. }
  destruct request
    as [user|username' password|authorization|authorization spend_data|
        |authorization item_id| |]; try done; cbn in Hauth; subst authorization.
  - rewrite handle_balance_eq, get_current_user_eq, Hdec.
    by destruct (list_find _ (users_db s)).
  - rewrite handle_spend_eq, get_current_user_eq, Hdec.
    destruct (list_find _ (users_db s)) as [[i u]|] eqn:Hf; [|done].
    destruct (ltb zero _); [|by destruct (sr_amount spend_data)].
    rewrite spend_money_eq.
    specialize (Hdebit i u (sr_amount spend_data) eq_refl). cbn [fst snd].
    by destruct (update_user_balance _ _ _ env s) as [[b|e] s0].
  - rewrite handle_buy_eq, get_current_user_eq, Hdec.
    destruct (list_find _ (users_db s)) as [[i u]|] eqn:Hf; [|done].
    rewrite buy_item_eq.
    destruct (list_find _ (items_db s)) as [[k item]|]; [|done].
    specialize (Hdebit i u (i_price item) eq_refl). cbn [fst snd].
    by destruct (update_user_balance _ _ _ env s) as [[b|e] s0].
Qed.

Lemma other_users_untouched_witness :
  NoDup (u_id <$> users_db two_users_state) /\
  users_db two_users_state !! 0%nat = Some alice /\
  u_balance <$> users_db (handle (spend "bob" (literal 30 0)) example_env two_users_state).2 =
    [literal 100 0; literal 70 0] /\
  users_db (handle (spend "bob" (literal 30 0)) example_env two_users_state).2 !! 0%nat =
    Some alice.
Proof.
  assert (Hnd : NoDup (u_id <$> users_db two_users_state)).
  { change (NoDup [1; 2]). apply (bool_decide_unpack _). exact I. }
  split; [exact Hnd|]. split; [reflexivity|]. split; [reflexivity|].
  exact (other_users_untouched (spend "bob" (literal 30 0)) example_env two_users_state
           "bob" "bob" Hnd eq_refl eq_refl 0%nat alice eq_refl ltac:(discriminate)).
Defined.

Lemma no_request_answers_user_not_found_witness :
  (handle (spend "alice" (literal 1000 0)) example_env alice_state).1 =
    Raise InsufficientFunds /\
  (handle (spend "alice" (literal 1000 0)) example_env alice_state).1 <>
    Raise UserNotFound.
Proof.
  split; [reflexivity|].
  exact (no_request_answers_user_not_found (spend "alice" (literal 1000 0))
           example_env alice_state).
Defined.
